(** * simple_invoice_creator: a shallow embedding of [create_invoice.py] and
      [store_config_in_1password.py], and the properties of their specification.

    The two scripts are straight-line Python.  What they compute with is
    modelled as Python has it:

    - [float] is an IEEE-754 binary64 value (a dyadic rational, or an infinity,
      or a NaN); conversions from text, from [Decimal] and from [int] round to
      nearest, ties to even; the [f] presentation type rounds the exact binary
      value;
    - [Decimal] is the triple (sign, coefficient, exponent) of the [decimal]
      module, computed under the default context (28 digits, half-even,
      Emax 999999, traps on InvalidOperation and Overflow);
    - [str] is a [string];  a [dict] with run-time keys is a [gmap];
    - exceptions are values of [pyexn]; printing, spawning a process and
      building the PDF are events appended to a trace.

    The collaborators the scripts call (argparse, tomllib, csv, reportlab,
    subprocess, the file system) are not re-implemented: what they hand back
    is an input of the model. *)

From Stdlib Require Import ZArith QArith Qpower List String Ascii Bool Lia DecimalString.
From Stdlib Require DecimalFacts DecimalPos DecimalN.
From stdpp Require Import base strings gmap.

Local Open Scope string_scope.
Local Open Scope list_scope.
Local Open Scope Z_scope.

(* ===================================================================== *)
(** * Exceptions, results and the trace of effects *)
(* ===================================================================== *)

(** The exceptions the two scripts can raise or let escape. *)
Inductive pyexn : Type :=
| ValueError (msg : string)
| TypeError (msg : string)
| KeyError (key : string)
| OverflowError (msg : string)
| OSError (msg : string)
| FileNotFoundError (what : string)
| InvalidOperation            (* decimal.InvalidOperation *)
| DecimalOverflow             (* decimal.Overflow *)
| CalledProcessError (returncode : Z) (stderr : string)
| SystemExit (code : Z).

(** A computation that can raise. *)
Inductive result (A : Type) : Type :=
| Ok (a : A)
| Raise (e : pyexn).
Arguments Ok {A} a.
Arguments Raise {A} e.

Definition rbind {A B} (r : result A) (k : A -> result B) : result B :=
  match r with
  | Ok a => k a
  | Raise e => Raise e
  end.

Declare Scope py_scope.
Delimit Scope py_scope with py.
Notation "'let?' x ':=' r 'in' k" := (rbind r (fun x => k))
  (at level 10, x pattern, r at level 100, k at level 200) : py_scope.
Local Open Scope py_scope.

(* ===================================================================== *)
(** * Text helpers *)
(* ===================================================================== *)

Definition chars (s : string) : list ascii := list_ascii_of_string s.
Definition text (l : list ascii) : string := string_of_list_ascii l.

(** Decimal digits of a natural number, most significant first ("0" for 0). *)
Definition digits_of_N (n : N) : string := NilZero.string_of_uint (N.to_uint n).
Definition digits_of_Z (z : Z) : string := digits_of_N (Z.to_N z).

(** Left-pad with zeros to a width. *)
Definition zfill (width : nat) (s : string) : string :=
  text (repeat "0"%char (width - String.length s)) +:+ s.

(** Python's [str.replace(old, new)] for a one-character [old]. *)
Fixpoint replace_char (old : ascii) (new : string) (s : string) : string :=
  match s with
  | EmptyString => EmptyString
  | String c rest =>
      if Ascii.eqb c old then new +:+ replace_char old new rest
      else String c (replace_char old new rest)
  end.

(** ASCII white space, as [str.strip()] and [float()] skip it. *)
Definition is_space (c : ascii) : bool :=
  let n := nat_of_ascii c in
  ((9 <=? n) && (n <=? 13))%nat || ((28 <=? n) && (n <=? 32))%nat
  || (n =? 133)%nat || (n =? 160)%nat.

Fixpoint lstrip (l : list ascii) : list ascii :=
  match l with
  | c :: rest => if is_space c then lstrip rest else l
  | [] => []
  end.

Definition strip_chars (l : list ascii) : list ascii :=
  rev (lstrip (rev (lstrip l))).

Definition strip (s : string) : string := text (strip_chars (chars s)).

Definition is_digit (c : ascii) : bool :=
  let n := nat_of_ascii c in ((48 <=? n) && (n <=? 57))%nat.

Definition digit_val (c : ascii) : Z := Z.of_nat (nat_of_ascii c) - 48.

(** Truthiness of a [str]. *)
Definition str_truthy (s : string) : bool :=
  match s with EmptyString => false | _ => true end.

(* ===================================================================== *)
(** * Python [float]: IEEE-754 binary64 *)
(* ===================================================================== *)

Module PyFloat.

(** [Finite neg m e] is (-1)^neg * m * 2^e with 0 <= m. *)
Inductive float : Type :=
| Finite (neg : bool) (m : Z) (e : Z)
| Infinity (neg : bool)
| NaN.

(** The finite values a binary64 holds, in their canonical form: a 53-bit
    significand with the top bit set, or the least exponent. *)
Definition canonical (x : float) : bool :=
  match x with
  | Finite _ m e =>
      (0 <=? m) && (m <? 2 ^ 53) && (-1074 <=? e) && (e <=? 971)
      && ((2 ^ 52 <=? m) || (e =? -1074))
  | _ => true
  end.

Definition zero : float := Finite false 0 (-1074).

Definition is_finite (x : float) : bool :=
  match x with Finite _ _ _ => true | _ => false end.

(** [bool(x)]: only the two zeros are falsy (a NaN is truthy). *)
Definition truthy (x : float) : bool :=
  match x with
  | Finite _ m _ => negb (m =? 0)
  | _ => true
  end.

Definition eqb (x y : float) : bool :=
  match x, y with
  | Finite s m e, Finite s' m' e' => Bool.eqb s s' && (m =? m') && (e =? e')
  | Infinity s, Infinity s' => Bool.eqb s s'
  | NaN, NaN => true
  | _, _ => false
  end.

(** Nearest integer to n/d (d > 0, n >= 0), ties to even. *)
Definition round_half_even (n d : Z) : Z :=
  let q := n / d in
  let r := n mod d in
  if 2 * r <? d then q
  else if d <? 2 * r then q + 1
  else if Z.even q then q else q + 1.

(** [2^k <= n/d], for any integer k. *)
Definition pow2_le (k n d : Z) : bool :=
  if 0 <=? k then d * 2 ^ k <=? n else d <=? n * 2 ^ (- k).

(** The binary64 nearest to (-1)^neg * n/d (n >= 0, d > 0), ties to even;
    beyond the largest finite value the result is an infinity. *)
Definition of_ratio (neg : bool) (n d : Z) : float :=
  if n <=? 0 then Finite neg 0 (-1074)
  else
    let l := Z.log2 n - Z.log2 d in
    let fl := if pow2_le l n d then l else l - 1 in
    let e := Z.max (fl - 52) (-1074) in
    let m := if 0 <=? e then round_half_even n (d * 2 ^ e)
             else round_half_even (n * 2 ^ (- e)) d in
    let '(m, e) := if m =? 2 ^ 53 then (2 ^ 52, e + 1) else (m, e) in
    if 971 <? e then Infinity neg else Finite neg m e.

(** The binary64 nearest to (-1)^neg * c * 10^e10: what reading a decimal
    literal gives. *)
Definition of_decimal (neg : bool) (c e10 : Z) : float :=
  if 0 <=? e10 then of_ratio neg (c * 10 ^ e10) 1
  else of_ratio neg c (10 ^ (- e10)).

(** [float(int)]: OverflowError beyond the finite range. *)
Definition of_int (z : Z) : result float :=
  match of_ratio (z <? 0) (Z.abs z) 1 with
  | Infinity _ => Raise (OverflowError "int too large to convert to float")
  | x => Ok x
  end.

(** ** The [f] presentation type: [format(x, ".<prec>f")] and [",.<prec>f"] *)

(** Commas between groups of three digits, counted from the right. *)
Fixpoint group3_rev (l : list ascii) : list ascii :=
  match l with
  | a :: b :: c :: ((_ :: _) as rest) => a :: b :: c :: ","%char :: group3_rev rest
  | _ => l
  end.

Definition group_thousands (s : string) : string :=
  text (rev (group3_rev (rev (chars s)))).

(** The exact value times 10^prec, rounded to an integer, ties to even. *)
Definition scaled_round (prec : nat) (m e : Z) : Z :=
  let n := m * 10 ^ Z.of_nat prec in
  if 0 <=? e then n * 2 ^ e else round_half_even n (2 ^ (- e)).

Definition format_f (grouping : bool) (prec : nat) (x : float) : string :=
  match x with
  | NaN => "nan"
  | Infinity neg => if neg then "-inf" else "inf"
  | Finite neg m e =>
      let k := scaled_round prec m e in
      let ip := digits_of_Z (k / 10 ^ Z.of_nat prec) in
      let fp := zfill prec (digits_of_Z (k mod 10 ^ Z.of_nat prec)) in
      (if neg then "-" else "")
      +:+ (if grouping then group_thousands ip else ip)
      +:+ (match prec with O => "" | _ => "." +:+ fp end)
  end.

(** ** [repr(x)]: the shortest decimal that reads back as [x] *)

(** [10^k <= n/d], for any integer k. *)
Definition pow10_le (k n d : Z) : bool :=
  if 0 <=? k then d * 10 ^ k <=? n else d <=? n * 10 ^ (- k).

(** floor (log10 (n/d)) for n, d > 0: the binary logarithms place it
    within two of the estimate. *)
Definition floor_log10 (n d : Z) : Z :=
  let est := (Z.log2 n - Z.log2 d) * 30103 / 100000 in
  match find (fun k => pow10_le k n d) [est + 2; est + 1; est; est - 1; est - 2] with
  | Some k => k
  | None => est - 3
  end.

(** (n/d) / 10^s as a fraction. *)
Definition scale10 (n d s : Z) : Z * Z :=
  if 0 <=? s then (n, d * 10 ^ s) else (n * 10 ^ (- s), d).

(** Among the decimals with [p] significant digits next to m * 2^e, one
    that reads back as the same float; the nearer one if both do. *)
Definition candidate (m e k : Z) (p : Z) : option (Z * Z) :=
  let n := m * 2 ^ Z.max e 0 in
  let d := 2 ^ Z.max (- e) 0 in
  let s := k - p + 1 in
  let '(N, D) := scale10 n d s in
  let lo := N / D in
  let hi := lo + 1 in
  let back c := eqb (of_decimal false c s) (Finite false m e) in
  match back lo, back hi with
  | true, true => Some (if 2 * (N mod D) <=? D then lo else hi, s)
  | true, false => Some (lo, s)
  | false, true => Some (hi, s)
  | false, false => None
  end.

Fixpoint first_candidate (m e k : Z) (ps : list Z) : option (Z * Z) :=
  match ps with
  | [] => None
  | p :: rest =>
      match candidate m e k p with
      | Some r => Some r
      | None => first_candidate m e k rest
      end
  end.

Fixpoint strip_zeros (fuel : nat) (c s : Z) : Z * Z :=
  match fuel with
  | O => (c, s)
  | S fuel' =>
      if (negb (c =? 0)) && (c mod 10 =? 0) then strip_zeros fuel' (c / 10) (s + 1)
      else (c, s)
  end.

(** The digits [c] and the exponent [s] of the last digit of [repr] of the
    positive canonical float m * 2^e: c * 10^s is the shortest decimal that
    rounds to it (17 digits always do). *)
Definition shortest (m e : Z) : Z * Z :=
  let k := floor_log10 (m * 2 ^ Z.max e 0) (2 ^ Z.max (- e) 0) in
  let '(c, s) :=
    match first_candidate m e k (map Z.of_nat (seq 1 17)) with
    | Some r => r
    | None =>
        let '(N, D) := scale10 (m * 2 ^ Z.max e 0) (2 ^ Z.max (- e) 0) (k - 16) in
        (round_half_even N D, k - 16)
    end in
  strip_zeros 18 c s.

(** ** [float(s)] for a [str] *)

(** Underscores may only stand between two digits. *)
Fixpoint underscores_ok (prev : ascii) (l : list ascii) : bool :=
  match l with
  | [] => negb (Ascii.eqb prev "_")
  | c :: rest =>
      if Ascii.eqb c "_" then is_digit prev && underscores_ok c rest
      else (negb (Ascii.eqb prev "_") || is_digit c) && underscores_ok c rest
  end.

Definition lower (c : ascii) : ascii :=
  let n := nat_of_ascii c in
  if ((65 <=? n) && (n <=? 90))%nat then ascii_of_nat (n + 32) else c.

Definition read_sign (l : list ascii) : bool * list ascii :=
  match l with
  | "-"%char :: rest => (true, rest)
  | "+"%char :: rest => (false, rest)
  | _ => (false, l)
  end.

(** A run of digits: its value continued from [acc], how many there were,
    and what follows. *)
Fixpoint read_digits (acc : Z) (count : Z) (l : list ascii) : Z * Z * list ascii :=
  match l with
  | c :: rest =>
      if is_digit c then read_digits (10 * acc + digit_val c) (count + 1) rest
      else (acc, count, l)
  | [] => (acc, count, [])
  end.

(** The exponent part: [e], an optional sign and at least one digit, up to
    the end of the text. *)
Definition read_exponent (l : list ascii) : option Z :=
  match l with
  | [] => Some 0
  | c :: rest =>
      if Ascii.eqb (lower c) "e" then
        let '(neg, rest) := read_sign rest in
        match read_digits 0 0 rest with
        | (v, n, []) => if 0 <? n then Some (if neg then - v else v) else None
        | _ => None
        end
      else None
  end.

(** A decimal literal without sign: digits, an optional point and digits
    (one digit at least), an optional exponent.  The result is the
    coefficient and the power of ten. *)
Definition read_number (l : list ascii) : option (Z * Z) :=
  let '(ip, n1, rest) := read_digits 0 0 l in
  let '(c, n2, rest) :=
    match rest with
    | "."%char :: rest' => read_digits ip 0 rest'
    | _ => (ip, 0, rest)
    end in
  if 0 <? n1 + n2 then
    match read_exponent rest with
    | Some x => Some (c, x - n2)
    | None => None
    end
  else None.

Definition parse (s : string) : option float :=
  let l := strip_chars (chars s) in
  if underscores_ok "000"%char l then
    let '(neg, body) := read_sign (filter (fun c => negb (Ascii.eqb c "_")) l) in
    let word := text (map lower body) in
    if String.eqb word "inf" || String.eqb word "infinity" then Some (Infinity neg)
    else if String.eqb word "nan" then Some NaN
    else
      match read_number body with
      | Some (c, x) => Some (of_decimal neg c x)
      | None => None
      end
  else None.

End PyFloat.

(* ===================================================================== *)
(** * Python [decimal.Decimal] under the default context *)
(* ===================================================================== *)

Module PyDecimal.

(** [Dec neg c e] is (-1)^neg * c * 10^e with 0 <= c; a zero keeps its sign
    and exponent. *)
Inductive decimal : Type :=
| Dec (neg : bool) (coeff : Z) (exp : Z)
| DInf (neg : bool)
| DNaN.

(** [getcontext()]: Context(prec=28, rounding=ROUND_HALF_EVEN, Emin=-999999,
    Emax=999999, clamp=0, traps=[InvalidOperation, DivisionByZero, Overflow]). *)
Definition prec : Z := 28.
Definition Emax : Z := 999999.
Definition Emin : Z := -999999.
Definition Etiny : Z := Emin - prec + 1.
Definition Etop : Z := Emax - prec + 1.

(** [len(self._int)]: the number of digits of the coefficient. *)
Definition ndigits (c : Z) : Z := Z.of_nat (String.length (digits_of_Z c)).

(** The exact value of a finite decimal. *)
Definition to_Q (d : decimal) : Q :=
  match d with
  | Dec neg c e => inject_Z (if neg then - c else c) * (10 # 1) ^ e
  | _ => 0
  end.

(** [c] without its last [drop] digits, rounded half-even. *)
Definition round_digits (c drop : Z) : Z :=
  let q := c / 10 ^ drop in
  let r := c mod 10 ^ drop in
  if (10 ^ drop <? 2 * r) || ((2 * r =? 10 ^ drop) && Z.odd q) then q + 1 else q.

(** [Decimal._fix]: round to the context's precision and check the
    exponent range.  Only Overflow is trapped; Rounded, Inexact, Subnormal,
    Underflow and Clamped are flags and leave no trace here. *)
Definition _fix (d : decimal) : result decimal :=
  match d with
  | Dec neg c e =>
      if c =? 0 then
        Ok (Dec neg 0 (Z.min (Z.max e Etiny) Emax))
      else
        let exp_min := ndigits c + e - prec in
        if Etop <? exp_min then Raise DecimalOverflow
        else
          let exp_min := if exp_min <? Etiny then Etiny else exp_min in
          if e <? exp_min then
            let digits := ndigits c + e - exp_min in
            let '(c, e) := if digits <? 0 then (1, exp_min - 1) else (c, e) in
            let coeff := round_digits c (exp_min - e) in
            let '(coeff, exp_min) :=
              if prec <? ndigits coeff then (coeff / 10, exp_min + 1)
              else (coeff, exp_min) in
            if Etop <? exp_min then Raise DecimalOverflow
            else Ok (Dec neg coeff exp_min)
          else Ok d
  | _ => Ok d
  end.

(** The product before [_fix]: signs xor, coefficients multiply, exponents
    add. *)
Definition mul_exact (neg1 : bool) (c1 e1 : Z) (neg2 : bool) (c2 e2 : Z) : decimal :=
  Dec (xorb neg1 neg2) (c1 * c2) (e1 + e2).

(** [Decimal.__mul__]. *)
Definition mul (a b : decimal) : result decimal :=
  match a, b with
  | DNaN, _ | _, DNaN => Ok DNaN
  | DInf s, DInf s' => Ok (DInf (xorb s s'))
  | DInf s, Dec s' c _ | Dec s' c _, DInf s =>
      if c =? 0 then Raise InvalidOperation else Ok (DInf (xorb s s'))
  | Dec s1 c1 e1, Dec s2 c2 e2 => _fix (mul_exact s1 c1 e1 s2 c2 e2)
  end.

(** The sum before [_fix]: both operands are brought to the smaller
    exponent and added as integers.  A zero sum is negative only when both
    operands are negative zeros. *)
Definition add_exact (neg1 : bool) (c1 e1 : Z) (neg2 : bool) (c2 e2 : Z) : decimal :=
  let e := Z.min e1 e2 in
  let v1 := (if neg1 then - c1 else c1) * 10 ^ (e1 - e) in
  let v2 := (if neg2 then - c2 else c2) * 10 ^ (e2 - e) in
  let v := v1 + v2 in
  if v =? 0 then Dec (if (c1 =? 0) && (c2 =? 0) then neg1 && neg2 else false) 0 e
  else Dec (v <? 0) (Z.abs v) e.

(** [Decimal.__add__]. *)
Definition add (a b : decimal) : result decimal :=
  match a, b with
  | DNaN, _ | _, DNaN => Ok DNaN
  | DInf s, DInf s' => if Bool.eqb s s' then Ok (DInf s) else Raise InvalidOperation
  | DInf s, _ | _, DInf s => Ok (DInf s)
  | Dec s1 c1 e1, Dec s2 c2 e2 => _fix (add_exact s1 c1 e1 s2 c2 e2)
  end.

(** [Decimal(str(x))] for a float [x]: the digits of [repr(x)] become the
    coefficient.  [repr] writes a point and the digits when the leading
    digit stands at 10^-4 .. 10^15 (adding [.0] to a whole number) and
    scientific notation otherwise. *)
Definition of_float_str (x : PyFloat.float) : decimal :=
  match x with
  | PyFloat.NaN => DNaN
  | PyFloat.Infinity neg => DInf neg
  | PyFloat.Finite neg m e =>
      if m =? 0 then Dec neg 0 (-1)
      else
        let '(c, s) := PyFloat.shortest m e in
        let k := s + ndigits c - 1 in
        if (k <? -4) || (16 <=? k) then Dec neg c s
        else if 0 <=? s then Dec neg (c * 10 ^ (s + 1)) (-1)
        else Dec neg c s
  end.

(** [Decimal(str(n))] for an int [n]. *)
Definition of_int_str (n : Z) : decimal := Dec (n <? 0) (Z.abs n) 0.

(** [float(d)]: the nearest binary64. *)
Definition to_float (d : decimal) : PyFloat.float :=
  match d with
  | Dec neg c e => PyFloat.of_decimal neg c e
  | DInf neg => PyFloat.Infinity neg
  | DNaN => PyFloat.NaN
  end.

(** A finite decimal that [_fix] leaves as it is: at most [prec] digits and
    an exponent within the context's range. *)
Definition within_context (d : decimal) : bool :=
  match d with
  | Dec _ c e =>
      (ndigits c <=? prec) && (Etiny <=? e) && (ndigits c + e - 1 <=? Emax)
  | _ => false
  end.

End PyDecimal.

(* ===================================================================== *)
(** * Effects: a trace of events and a result *)
(* ===================================================================== *)

(** A run of a script: the events it caused, in order, and how it ended. *)
Definition run (E A : Type) : Type := (list E * result A)%type.

Definition ret {E A} (a : A) : run E A := ([], Ok a).
Definition throw {E A} (e : pyexn) : run E A := ([], Raise e).
Definition emit {E} (ev : E) : run E unit := ([ev], Ok tt).
Definition lift {E A} (r : result A) : run E A := ([], r).

Definition bind {E A B} (m : run E A) (k : A -> run E B) : run E B :=
  match m with
  | (t, Ok a) => let '(t', r) := k a in (t ++ t', r)
  | (t, Raise e) => (t, Raise e)
  end.

(** [try: m except <handled>: h]. *)
Definition try_except {E A} (m : run E A) (h : pyexn -> option (run E A)) : run E A :=
  match m with
  | (t, Raise e) =>
      match h e with
      | Some k => let '(t', r) := k in (t ++ t', r)
      | None => (t, Raise e)
      end
  | done => done
  end.

Notation "'do' x '<-' m ';' k" := (bind m (fun x => k))
  (at level 10, x pattern, m at level 100, k at level 200) : py_scope.
Notation "m ';;' k" := (bind m (fun _ => k))
  (at level 100, k at level 200, right associativity) : py_scope.

Definition events {E A} (r : run E A) : list E := fst r.

(** [repr(s)] of a [str] whose code points are below 256. *)
Definition hex_digit (n : nat) : ascii :=
  match nth_error (chars "0123456789abcdef") n with Some c => c | None => "0"%char end.

Definition repr_char (quote : ascii) (c : ascii) : list ascii :=
  let n := nat_of_ascii c in
  if Ascii.eqb c "\" then ["\"; "\"]%char
  else if Ascii.eqb c quote then ["\"%char; c]
  else if (n =? 10)%nat then ["\"; "n"]%char
  else if (n =? 13)%nat then ["\"; "r"]%char
  else if (n =? 9)%nat then ["\"; "t"]%char
  else if (n <? 32)%nat || ((127 <=? n) && (n <=? 160))%nat || (n =? 173)%nat
       then ["\"; "x"]%char ++ [hex_digit (n / 16); hex_digit (n mod 16)]
  else [c].

Definition repr_str (s : string) : string :=
  let l := chars s in
  let has q := existsb (Ascii.eqb q) l in
  let quote := if has "'"%char && negb (has "034"%char) then "034"%char else "'"%char in
  text ([quote] ++ concat (map (repr_char quote) l) ++ [quote]).

(* ===================================================================== *)
(** * create_invoice.py *)
(* ===================================================================== *)

Module Invoice.
Import PyFloat PyDecimal.

(** ** Data *)

(** A rate is a [float] (from argparse or a CSV field) or whatever number
    the configuration gives (a TOML integer or float). *)
Inductive number : Type :=
| PInt (z : Z)
| PFloat (x : float).

(** The configuration, as [tomllib.load] returns it for a file that has the
    four tables and the keys the script reads; each text field is what
    [str()] of the value is.  (A file without one of these keys makes the
    script fail with KeyError where it reads the key; such files are not
    values of this type.) *)
Record sender_cfg := {
  sender_name : string; sender_address_1 : string; sender_address_2 : string;
  sender_email : string; sender_phone : string }.
Record client_cfg := {
  client_name : string; client_company : string;
  client_address_1 : string; client_address_2 : string }.
Record bank_cfg := {
  bank_account : string; bank_ach_routing : string; bank_wire_routing : string }.
Record invoice_cfg := {
  number_prefix : string; filename_prefix : string;
  default_description : string; default_rate : number }.
Record config := {
  sender : sender_cfg; client : client_cfg; bank : bank_cfg; invoice : invoice_cfg }.

(** The namespace [parse_args()] returns.  [--date] has a default, so it is
    always there; every other option is [None] when it is not given. *)
Record args := {
  arg_hours : option float;
  arg_rate : option float;
  arg_description : option string;
  arg_date : string;
  arg_csv : option string;
  arg_output : option string;
  arg_config : option string }.

(** A line item: the dict with keys "hours", "description" and "rate".  The
    description of a CSV row that is too short is [None]. *)
Record line_item := {
  hours : float;
  description : option string;
  rate : number }.

(** A row that [csv.DictReader] yields: a dict from the header's column
    names to the row's fields, [None] where the row is too short. *)
Abbreviation csv_row := (gmap string (option string)).

(** A cell of the table is a [str], or the [None] of a missing description. *)
Abbreviation cell := (option string).
Abbreviation table := (list (list cell)).

(** What [create_invoice] hands to reportlab, in the order of the page. *)
Record document := {
  doc_sender : string;
  doc_meta : string;
  doc_client : string;
  doc_table : table;
  doc_bank : string;
  doc_note : string;
  doc_footer : string }.

Inductive event : Type :=
| Print (line : string)                       (* print(line) *)
| Build (path : string) (doc : document).     (* doc.build(elements) wrote [path] *)

(** What the script asks of its surroundings. *)
Record env := {
  default_config_path : string;               (* Path(__file__).parent / "config.toml" *)
  read_config : string -> result config;      (* open(path, "rb") and tomllib.load *)
  read_csv : string -> result (list csv_row); (* open(path, newline="") and the DictReader's rows *)
  build_error : string -> option pyexn }.     (* what doc.build raises at this path, if anything *)

(** ** Dates: [datetime.strptime(s, "%Y-%m-%d")] and [strftime] *)

Definition digit_in (lo hi : Z) (c : ascii) : bool :=
  is_digit c && (lo <=? digit_val c) && (digit_val c <=? hi).

Definition no_match (s : string) : pyexn :=
  ValueError ("time data " +:+ repr_str s +:+ " does not match format '%Y-%m-%d'").

(** The month directive followed by the dash: 1[0-2], 0[1-9] or [1-9]. *)
Definition read_month (l : list ascii) : option (Z * list ascii) :=
  match l with
  | a :: b :: rest =>
      if (Ascii.eqb a "1" && digit_in 0 2 b) || (Ascii.eqb a "0" && digit_in 1 9 b)
      then match rest with
           | "-"%char :: rest' => Some (10 * digit_val a + digit_val b, rest')
           | _ => None
           end
      else if digit_in 1 9 a && Ascii.eqb b "-" then Some (digit_val a, rest)
      else None
  | _ => None
  end.

(** The day directive: 3[0-1], [1-2]\d, 0[1-9], [1-9] or a space and [1-9],
    the first that matches. *)
Definition read_day (l : list ascii) : option (Z * list ascii) :=
  match l with
  | a :: b :: rest =>
      if (Ascii.eqb a "3" && digit_in 0 1 b) || (digit_in 1 2 a && is_digit b)
         || (Ascii.eqb a "0" && digit_in 1 9 b)
      then Some (10 * digit_val a + digit_val b, rest)
      else if digit_in 1 9 a then Some (digit_val a, b :: rest)
      else if Ascii.eqb a " " && digit_in 1 9 b then Some (digit_val b, rest)
      else None
  | [a] => if digit_in 1 9 a then Some (digit_val a, []) else None
  | [] => None
  end.

Definition is_leap (y : Z) : bool :=
  ((y mod 4 =? 0) && negb (y mod 100 =? 0)) || (y mod 400 =? 0).

Definition days_in_month (y m : Z) : Z :=
  if m =? 2 then (if is_leap y then 29 else 28)
  else if (m =? 4) || (m =? 6) || (m =? 9) || (m =? 11) then 30 else 31.

Definition strptime (s : string) : result (Z * Z * Z) :=
  match chars s with
  | y1 :: y2 :: y3 :: y4 :: "-"%char :: rest =>
      if is_digit y1 && is_digit y2 && is_digit y3 && is_digit y4 then
        let y := 1000 * digit_val y1 + 100 * digit_val y2 + 10 * digit_val y3 + digit_val y4 in
        match read_month rest with
        | Some (m, rest) =>
            match read_day rest with
            | Some (d, []) =>
                if y =? 0 then Raise (ValueError "year 0 is out of range")
                else if days_in_month y m <? d
                     then Raise (ValueError "day is out of range for month")
                else Ok (y, m, d)
            | Some (_, remains) =>
                Raise (ValueError ("unconverted data remains: " +:+ text remains))
            | None => Raise (no_match s)
            end
        | None => Raise (no_match s)
        end
      else Raise (no_match s)
  | _ => Raise (no_match s)
  end.

Definition month_name (m : Z) : string :=
  nth (Z.to_nat (m - 1))
    ["January"; "February"; "March"; "April"; "May"; "June"; "July"; "August";
     "September"; "October"; "November"; "December"] "".

Definition two_digits (n : Z) : string := zfill 2 (digits_of_Z n).

(** [d.strftime('%Y-%m-%d')]; the C library does not pad the year. *)
Definition strftime_iso (d : Z * Z * Z) : string :=
  let '(y, m, dd) := d in
  digits_of_Z y +:+ "-" +:+ two_digits m +:+ "-" +:+ two_digits dd.

(** [d.strftime("%B %d, %Y")]. *)
Definition strftime_long (d : Z * Z * Z) : string :=
  let '(y, m, dd) := d in
  month_name m +:+ " " +:+ two_digits dd +:+ ", " +:+ digits_of_Z y.

(** [s.replace(" 0", " ")]. *)
Fixpoint replace_space_zero (s : string) : string :=
  match s with
  | String " " (String "0" rest) => String " " (replace_space_zero rest)
  | String c rest => String c (replace_space_zero rest)
  | EmptyString => EmptyString
  end.

(** ** [load_config], [load_line_items_from_csv], [format_currency] *)

Definition load_config (E : env) (config_path : option string) : result config :=
  read_config E (match config_path with Some p => p | None => default_config_path E end).

(** [row[key]]. *)
Definition getitem (row : csv_row) (key : string) : result (option string) :=
  match row !! key with
  | Some v => Ok v
  | None => Raise (KeyError key)
  end.

(** [float(v)] for a field of a row. *)
Definition float_of_field (v : option string) : result float :=
  match v with
  | None => Raise (TypeError
      "float() argument must be a string or a real number, not 'NoneType'")
  | Some s =>
      match parse s with
      | Some x => Ok x
      | None => Raise (ValueError ("could not convert string to float: " +:+ repr_str s))
      end
  end.

Definition item_of_row (row : csv_row) : result line_item :=
  let? h := getitem row "hours" in
  let? h := float_of_field h in
  let? d := getitem row "description" in
  let? r := getitem row "rate" in
  let? r := float_of_field r in
  Ok {| hours := h; description := d; rate := PFloat r |}.

Fixpoint items_of_rows (rows : list csv_row) : result (list line_item) :=
  match rows with
  | [] => Ok []
  | row :: rest =>
      let? item := item_of_row row in
      let? items := items_of_rows rest in
      Ok (item :: items)
  end.

Definition load_line_items_from_csv (E : env) (csv_path : string)
  : result (list line_item) :=
  let? rows := read_csv E csv_path in
  items_of_rows rows.

Definition format_currency (amount : float) : string :=
  "$" +:+ format_f true 2 amount.

(** ** [create_invoice]: the line-item table (lines 140-160) *)

Definition Decimal_of_str (v : number) : decimal :=
  match v with
  | PInt z => of_int_str z
  | PFloat x => of_float_str x
  end.

(** [format(v, ".2f")]: an int is converted to a float first. *)
Definition format_number (prec : nat) (v : number) : result string :=
  match v with
  | PInt z => let? x := of_int z in Ok (format_f false prec x)
  | PFloat x => Ok (format_f false prec x)
  end.

Definition header_row : list cell :=
  [Some "Hours"; Some "Description"; Some "Rate"; Some "Amount"].

Definition blank_row : list cell := [Some ""; Some ""; Some ""; Some ""].

Definition total_row (total : decimal) : list cell :=
  [Some ""; Some ""; Some "Total"; Some (format_currency (to_float total))].

(** [Decimal(str(hours)) * Decimal(str(rate))]. *)
Definition amount_of (item : line_item) : result decimal :=
  mul (of_float_str (hours item)) (Decimal_of_str (rate item)).

(** The row the loop appends for an item whose amount is [amount]. *)
Definition item_row (item : line_item) (amount : decimal) : result (list cell) :=
  let? rate_text := format_number 2 (rate item) in
  Ok [Some (if truthy (hours item) then format_f false 1 (hours item) else "");
      description item;
      Some ("$" +:+ rate_text);
      Some (format_currency (to_float amount))].

(** The loop over the line items: it carries [total] and [table_data]. *)
Fixpoint add_items (total : decimal) (table_data : table) (line_items : list line_item)
  : result (decimal * table) :=
  match line_items with
  | [] => Ok (total, table_data)
  | item :: rest =>
      let? amount := amount_of item in
      let? total := add total amount in
      let? row := item_row item amount in
      add_items total (table_data ++ [row]) rest
  end.

(** The total as the loop computes it. *)
Definition invoice_total (line_items : list line_item) : result decimal :=
  let? (total, _) := add_items (Dec false 0 0) [header_row] line_items in
  Ok total.

(** [table_data] as it is handed to [Table]. *)
Definition build_table (line_items : list line_item) : result table :=
  let? (total, table_data) := add_items (Dec false 0 0) [header_row] line_items in
  let empty_rows_needed := Z.max 0 (8 - Z.of_nat (List.length table_data)) in
  let table_data := table_data ++ repeat blank_row (Z.to_nat empty_rows_needed) in
  Ok (table_data ++ [total_row total]).

(** ** [create_invoice] *)

Definition br : string := "<br/>".

Definition create_invoice (E : env) (date_str : string) (line_items : list line_item)
  (output_path : string) (cfg : config) : run event unit :=
  let sender := sender cfg in
  let client := client cfg in
  let bank := bank cfg in
  let invoice_cfg := invoice cfg in
  do invoice_date <- lift (strptime date_str);
  let invoice_number := number_prefix invoice_cfg +:+ strftime_iso invoice_date in
  let formatted_date := replace_space_zero (strftime_long invoice_date) in
  do table_data <- lift (build_table line_items);
  let doc := {|
    doc_sender := sender_name sender +:+ br +:+ sender_address_1 sender +:+ br
                  +:+ sender_address_2 sender +:+ br +:+ sender_email sender +:+ br
                  +:+ sender_phone sender;
    doc_meta := "<b>Date:</b> " +:+ formatted_date +:+ "<br/><b>Invoice #:</b> "
                +:+ invoice_number;
    doc_client := client_name client +:+ br +:+ client_company client +:+ br
                  +:+ client_address_1 client +:+ br +:+ client_address_2 client;
    doc_table := table_data;
    doc_bank := "Account Number: " +:+ bank_account bank +:+ br
                +:+ "ACH Routing Number: " +:+ bank_ach_routing bank +:+ br
                +:+ "Wire Routing Number: " +:+ bank_wire_routing bank;
    doc_note := "Make all checks payable to " +:+ sender_name sender;
    doc_footer := sender_name sender +:+ " " +:+ sender_address_1 sender +:+ ", "
                  +:+ sender_address_2 sender +:+ " Phone " +:+ sender_phone sender
                  +:+ " " +:+ sender_email sender |} in
  match build_error E output_path with
  | Some e => throw e
  | None =>
      emit (Build output_path doc);;
      emit (Print ("Invoice created: " +:+ output_path))
  end.

(** ** [main] *)

(** [x if x else None] on an optional value: the value when it is truthy. *)
Definition if_truthy {A} (truthy : A -> bool) (o : option A) : option A :=
  match o with
  | Some a => if truthy a then Some a else None
  | None => None
  end.

(** The item of the [elif args.hours] branch (lines 216-220). *)
Definition single_item (a : args) (invoice_cfg : invoice_cfg) (h : float) : line_item :=
  {| hours := h;
     description :=
       Some (match if_truthy str_truthy (arg_description a) with
             | Some d => d
             | None => default_description invoice_cfg
             end);
     rate :=
       match if_truthy truthy (arg_rate a) with
       | Some r => PFloat r
       | None => default_rate invoice_cfg
       end |}.

(** The output path (lines 225-229). *)
Definition output_path_of (a : args) (invoice_cfg : invoice_cfg) : string :=
  match if_truthy str_truthy (arg_output a) with
  | Some output => output
  | None =>
      let date_formatted := replace_char "-" "" (arg_date a) in
      filename_prefix invoice_cfg +:+ "_" +:+ date_formatted +:+ ".pdf"
  end.

Definition usage_error : string := "Error: Must provide either --hours or --csv".

Definition main (E : env) (a : args) : run event unit :=
  let config_path := if_truthy str_truthy (arg_config a) in
  do cfg <- lift (load_config E config_path);
  let invoice_cfg := invoice cfg in
  let finish (line_items : list line_item) : run event unit :=
    create_invoice E (arg_date a) line_items (output_path_of a invoice_cfg) cfg in
  match if_truthy str_truthy (arg_csv a) with
  | Some csv =>
      do line_items <- lift (load_line_items_from_csv E csv);
      finish line_items
  | None =>
      match if_truthy truthy (arg_hours a) with
      | Some h => finish [single_item a invoice_cfg h]
      | None => emit (Print usage_error)
      end
  end.

End Invoice.

(* ===================================================================== *)
(** * store_config_in_1password.py *)
(* ===================================================================== *)

Module Publisher.

(** What [subprocess.run(..., capture_output=True, text=True)] returns. *)
Record completed := {
  returncode : Z;
  stdout : string;
  stderr : string }.

Inductive event : Type :=
| Print (line : string)                 (* print(line) *)
| PrintErr (line : string)              (* print(line, file=sys.stderr) *)
| Run (cmd : list string).              (* subprocess.run(cmd, ...) was called *)

(** What the script asks of its surroundings.  [process cmd] is [None] when
    the executable cannot be found. *)
Record env := {
  path_exists : string -> bool;                  (* config_path.exists() *)
  read_text : string -> result string;           (* config_path.read_text() *)
  process : list string -> option completed }.

(** The namespace of [main]'s parser: [--config] and [--title] have defaults,
    [--vault] is required. *)
Record args := {
  arg_config : string;
  arg_vault : string;
  arg_title : string;
  arg_account : option string }.

(** [["--account", account] if account else []]. *)
Definition account_args (account : option string) : list string :=
  match account with
  | Some a => if str_truthy a then ["--account"; a] else []
  | None => []
  end.

Definition subprocess_run (E : env) (cmd : list string) (check : bool)
  : run event completed :=
  emit (Run cmd);;
  match process E cmd with
  | None => throw (FileNotFoundError (hd "" cmd))
  | Some r =>
      if check && negb (returncode r =? 0)
      then throw (CalledProcessError (returncode r) (stderr r))
      else ret r
  end.

Definition get_cmd (vault title : string) (account : option string) : list string :=
  ["op"; "item"; "get"; title; "--vault"; vault] ++ account_args account.

Definition item_exists (E : env) (vault title : string) (account : option string)
  : run event bool :=
  do result <- subprocess_run E (get_cmd vault title account) false;
  ret (returncode result =? 0).

Definition payload (config_content : string) : string :=
  "config[text]=" +:+ config_content.

Definition edit_cmd (vault title : string) (account : option string)
  (config_content : string) : list string :=
  ["op"; "item"; "edit"; title; "--vault"; vault; payload config_content]
  ++ account_args account.

Definition create_cmd (vault title : string) (account : option string)
  (config_content : string) : list string :=
  ["op"; "item"; "create"; "--category"; "Secure Note"; "--vault"; vault;
   "--title"; title; payload config_content]
  ++ account_args account.

Definition reference (vault title : string) : string :=
  "op://" +:+ vault +:+ "/" +:+ title +:+ "/config".

Definition sys_exit {A} (code : Z) : run event A := throw (SystemExit code).

Definition op_not_found : string :=
  "1Password CLI (op) not found. Install it from https://1password.com/downloads/command-line/".

Definition store_config (E : env) (config_path vault title : string)
  (account : option string) : run event string :=
  if negb (path_exists E config_path) then
    emit (PrintErr ("Error: Config file not found: " +:+ config_path));;
    sys_exit 1
  else
    do config_content <- lift (read_text E config_path);
    try_except
      (do found <- item_exists E vault title account;
       (if found then
          subprocess_run E (edit_cmd vault title account config_content) true;;
          emit (Print ("Config updated in 1Password: " +:+ reference vault title))
        else
          subprocess_run E (create_cmd vault title account config_content) true;;
          emit (Print ("Config stored in 1Password: " +:+ reference vault title)));;
       ret (reference vault title))
      (fun e =>
         match e with
         | CalledProcessError _ err =>
             Some (emit (PrintErr ("Failed to store in 1Password: " +:+ strip err));;
                   sys_exit 1)
         | FileNotFoundError _ =>
             Some (emit (PrintErr op_not_found);; sys_exit 1)
         | _ => None
         end).

Definition main (E : env) (a : args) : run event unit :=
  do ref <- store_config E (arg_config a) (arg_vault a) (arg_title a) (arg_account a);
  let account_flag :=
    match arg_account a with
    | Some acc => if str_truthy acc then " --op-account " +:+ acc else ""
    | None => ""
    end in
  emit (Print (String "010" "Use with: uv run create_invoice.py --hours 100 --op-item "
               +:+ String "034" ref +:+ String "034" account_flag)).

End Publisher.

(* ===================================================================== *)
(** * What the specification talks about *)
(* ===================================================================== *)

Module Spec.
Import PyFloat PyDecimal.

(** ** Totals *)

(** The exact sum of hours x rate, each read as the decimal that [str]
    prints, as a rational number. *)
Fixpoint exact_sum (line_items : list Invoice.line_item) : Q :=
  match line_items with
  | [] => 0
  | item :: rest =>
      (to_Q (of_float_str (Invoice.hours item))
       * to_Q (Invoice.Decimal_of_str (Invoice.rate item))
       + exact_sum rest)%Q
  end.

(** The coefficient with its sign. *)
Definition signed (neg : bool) (c : Z) : Z := if neg then - c else c.

Definition is_ok {A} (r : result A) : bool :=
  match r with Ok _ => true | Raise _ => false end.


(** ** The shape of a currency text: "$", an optional "-", one to three
    digits, groups of a comma and three digits, a point and two digits. *)

Fixpoint groups_then_cents (l : list ascii) : bool :=
  match l with
  | sep :: a :: b :: rest =>
      if Ascii.eqb sep "," then
        match rest with
        | c :: rest' => is_digit a && is_digit b && is_digit c && groups_then_cents rest'
        | [] => false
        end
      else Ascii.eqb sep "." && is_digit a && is_digit b
           && match rest with [] => true | _ => false end
  | _ => false
  end.

(** One to three digits, then [groups_then_cents]. *)
Definition leading_group (l : list ascii) : bool :=
  match l with
  | a :: rest =>
      is_digit a
      && (groups_then_cents rest
          || match rest with
             | b :: rest =>
                 is_digit b
                 && (groups_then_cents rest
                     || match rest with
                        | c :: rest => is_digit c && groups_then_cents rest
                        | [] => false
                        end)
             | [] => false
             end)
  | [] => false
  end.

(** Exactly two digits. *)
Definition two_digit_text (s : string) : bool :=
  match chars s with
  | [a; b] => is_digit a && is_digit b
  | _ => false
  end.

Definition currency_shape (s : string) : bool :=
  match chars s with
  | dollar :: rest =>
      Ascii.eqb dollar "$"
      && match rest with
         | c :: rest' => if Ascii.eqb c "-" then leading_group rest' else leading_group rest
         | [] => false
         end
  | [] => false
  end.

(** A row made for a line item. *)
Definition row_of_item (item : Invoice.line_item) (row : list Invoice.cell) : Prop :=
  exists amount, Invoice.item_row item amount = Ok row.

(** ** Rows of a CSV file *)





(** ** Runs of the invoice builder *)

Definition with_hours (a : Invoice.args) (h : option float) : Invoice.args :=
  {| Invoice.arg_hours := h;
     Invoice.arg_rate := Invoice.arg_rate a;
     Invoice.arg_description := Invoice.arg_description a;
     Invoice.arg_date := Invoice.arg_date a;
     Invoice.arg_csv := Invoice.arg_csv a;
     Invoice.arg_output := Invoice.arg_output a;
     Invoice.arg_config := Invoice.arg_config a |}.

Definition is_build (ev : Invoice.event) : bool :=
  match ev with Invoice.Build _ _ => true | _ => false end.

(** A run that ends as a usage error: the message is printed, nothing else
    happens, and no exception escapes. *)
Definition usage_error_run (r : run Invoice.event unit) : Prop :=
  r = ([Invoice.Print Invoice.usage_error], Ok tt).

(** The configuration the run reads, if it loads. *)
Definition with_rate (a : Invoice.args) (r : option float) : Invoice.args :=
  {| Invoice.arg_hours := Invoice.arg_hours a;
     Invoice.arg_rate := r;
     Invoice.arg_description := Invoice.arg_description a;
     Invoice.arg_date := Invoice.arg_date a;
     Invoice.arg_csv := Invoice.arg_csv a;
     Invoice.arg_output := Invoice.arg_output a;
     Invoice.arg_config := Invoice.arg_config a |}.

Definition config_of (E : Invoice.env) (a : Invoice.args) : result Invoice.config :=
  Invoice.load_config E (Invoice.if_truthy str_truthy (Invoice.arg_config a)).

Definition all_digits (s : string) : bool := forallb is_digit (chars s).

(** ** Runs of the secret publisher *)


(** The commands a run called, in order. *)
Definition commands (t : list Publisher.event) : list (list string) :=
  flat_map (fun ev => match ev with Publisher.Run cmd => [cmd] | _ => [] end) t.


(** The command that follows the lookup, and the line printed after it. *)
Definition chosen_cmd (vault title : string) (account : option string)
  (found : bool) (content : string) : list string :=
  if found then Publisher.edit_cmd vault title account content
  else Publisher.create_cmd vault title account content.

Definition success_line (vault title : string) (found : bool) : string :=
  (if found then "Config updated in 1Password: " else "Config stored in 1Password: ")
  +:+ Publisher.reference vault title.

End Spec.

(* ===================================================================== *)
(** * Sample surroundings and inputs *)
(* ===================================================================== *)

Module Demo.
Import PyFloat.

Definition cfg : Invoice.config :=
  {| Invoice.sender :=
       {| Invoice.sender_name := "Ada Byron"; Invoice.sender_address_1 := "12 St James Square";
          Invoice.sender_address_2 := "London"; Invoice.sender_email := "ada@example.org";
          Invoice.sender_phone := "555-0100" |};
     Invoice.client :=
       {| Invoice.client_name := "C. Babbage"; Invoice.client_company := "Analytical Engines";
          Invoice.client_address_1 := "1 Dorset Street"; Invoice.client_address_2 := "London" |};
     Invoice.bank :=
       {| Invoice.bank_account := "000123"; Invoice.bank_ach_routing := "021000021";
          Invoice.bank_wire_routing := "026009593" |};
     Invoice.invoice :=
       {| Invoice.number_prefix := "INV-"; Invoice.filename_prefix := "invoice";
          Invoice.default_description := "Consulting Services";
          Invoice.default_rate := Invoice.PInt 150 |} |}.

Definition row (h d r : option string) : Invoice.csv_row :=
  list_to_map [("hours", h); ("description", d); ("rate", r)].

Definition good_row : Invoice.csv_row := row (Some "8") (Some "Design") (Some "100").
Definition short_row : Invoice.csv_row := row (Some "8") (Some "Design") None.
Definition text_row : Invoice.csv_row := row (Some "eight") (Some "Design") (Some "100").

(** A directory with [config.toml] and three CSV files. *)
Definition E : Invoice.env :=
  {| Invoice.default_config_path := "config.toml";
     Invoice.read_config := fun p =>
       if String.eqb p "config.toml" then Ok cfg else Raise (FileNotFoundError p);
     Invoice.read_csv := fun p =>
       if String.eqb p "line_items.csv" then Ok [good_row]
       else if String.eqb p "short.csv" then Ok [good_row; short_row]
       else if String.eqb p "text.csv" then Ok [good_row; text_row; short_row]
       else Raise (FileNotFoundError p);
     Invoice.build_error := fun _ => None |}.

Definition no_args : Invoice.args :=
  {| Invoice.arg_hours := None; Invoice.arg_rate := None; Invoice.arg_description := None;
     Invoice.arg_date := "2025-12-02"; Invoice.arg_csv := None;
     Invoice.arg_output := None; Invoice.arg_config := None |}.

Definition with_csv (a : Invoice.args) (p : option string) : Invoice.args :=
  {| Invoice.arg_hours := Invoice.arg_hours a; Invoice.arg_rate := Invoice.arg_rate a;
     Invoice.arg_description := Invoice.arg_description a;
     Invoice.arg_date := Invoice.arg_date a; Invoice.arg_csv := p;
     Invoice.arg_output := Invoice.arg_output a; Invoice.arg_config := Invoice.arg_config a |}.

Definition with_output (a : Invoice.args) (p : option string) : Invoice.args :=
  {| Invoice.arg_hours := Invoice.arg_hours a; Invoice.arg_rate := Invoice.arg_rate a;
     Invoice.arg_description := Invoice.arg_description a;
     Invoice.arg_date := Invoice.arg_date a; Invoice.arg_csv := Invoice.arg_csv a;
     Invoice.arg_output := p; Invoice.arg_config := Invoice.arg_config a |}.

(** [--hours 10 --csv line_items.csv] and [--hours 10 --output ""]. *)
Definition both_args : Invoice.args :=
  with_csv (Spec.with_hours no_args (Some (of_decimal false 10 0))) (Some "line_items.csv").
Definition empty_output_args : Invoice.args :=
  with_output (Spec.with_hours no_args (Some (of_decimal false 10 0))) (Some "").

(** The floats 0.1, 3.0, 10.0, 100.0, 1.23456789012345 and 1e200. *)
Definition f0_1 : float := of_decimal false 1 (-1).
Definition f3 : float := of_decimal false 3 0.
Definition f10 : float := of_decimal false 10 0.
Definition f100 : float := of_decimal false 100 0.
Definition f_long : float := of_decimal false 123456789012345 (-14).
Definition f1e200 : float := of_decimal false 1 200.

Definition item (h r : float) : Invoice.line_item :=
  {| Invoice.hours := h; Invoice.description := Some "Work"; Invoice.rate := Invoice.PFloat r |}.

(** The publisher's surroundings: a readable config file and an [op] whose
    lookup exits with [lookup_code]; [None] stands for no [op] at all. *)
Definition publisher (lookup_code : option Z) : Publisher.env :=
  {| Publisher.path_exists := fun p => String.eqb p "config.toml";
     Publisher.read_text := fun p =>
       if String.eqb p "config.toml" then Ok "[invoice]" else Raise (FileNotFoundError p);
     Publisher.process := fun cmd =>
       match lookup_code with
       | None => None
       | Some code =>
           Some {| Publisher.returncode :=
                     if String.eqb (nth 2%nat cmd "") "get" then code else 0;
                   Publisher.stdout := "";
                   Publisher.stderr :=
                     if String.eqb (nth 2%nat cmd "") "get"
                     then (if code =? 0 then "" else "[ERROR] not signed in") else "" |}
       end |}.

End Demo.


(* ===================================================================== *)
(** * Further notions: options, dates, traces, cents *)
(* ===================================================================== *)

Module More.
Import PyFloat PyDecimal.

(** An option given as the empty text, read as not given. *)
Definition drop_empty (o : option string) : option string :=
  Invoice.if_truthy str_truthy o.

Definition without_empty_options (a : Invoice.args) : Invoice.args :=
  {| Invoice.arg_hours := Invoice.arg_hours a;
     Invoice.arg_rate := Invoice.arg_rate a;
     Invoice.arg_description := drop_empty (Invoice.arg_description a);
     Invoice.arg_date := Invoice.arg_date a;
     Invoice.arg_csv := drop_empty (Invoice.arg_csv a);
     Invoice.arg_output := drop_empty (Invoice.arg_output a);
     Invoice.arg_config := drop_empty (Invoice.arg_config a) |}.

(** A day of the calendar that [datetime] can hold. *)
Definition calendar_date (date : Z * Z * Z) : Prop :=
  let '(y, m, d) := date in
  1 <= y <= 9999 /\ 1 <= m <= 12 /\ 1 <= d <= Invoice.days_in_month y m.


(** Whether a text ends in a space. *)
Fixpoint ends_in_space (s : string) : bool :=
  match s with
  | EmptyString => false
  | String c EmptyString => Ascii.eqb c " "
  | String _ rest => ends_in_space rest
  end.

(** The date as [create_invoice] shows it: the month's name, the day without
    a leading zero, the year. *)
Definition long_date (date : Z * Z * Z) : string :=
  let '(y, m, d) := date in
  Invoice.month_name m +:+ " " +:+ digits_of_Z d +:+ ", " +:+ digits_of_Z y.

(** A run that has something to make an invoice from: a non-empty [--csv]
    whose file loads, or no [--csv] and a truthy [--hours]. *)
Definition has_line_items (E : Invoice.env) (a : Invoice.args) : Prop :=
  (exists csv items,
      Invoice.if_truthy str_truthy (Invoice.arg_csv a) = Some csv
      /\ Invoice.load_line_items_from_csv E csv = Ok items)
  \/ (Invoice.if_truthy str_truthy (Invoice.arg_csv a) = None
      /\ exists h, Invoice.if_truthy truthy (Invoice.arg_hours a) = Some h).


(** No source of line items and a configuration file that is not there. *)
Definition no_config_args : Invoice.args :=
  {| Invoice.arg_hours := None; Invoice.arg_rate := None;
     Invoice.arg_description := None; Invoice.arg_date := "2025-12-02";
     Invoice.arg_csv := None; Invoice.arg_output := None;
     Invoice.arg_config := Some "missing.toml" |}.

(** [--hours 10 --date 2025-02-30]. *)
Definition bad_date_args : Invoice.args :=
  {| Invoice.arg_hours := Some (of_decimal false 10 0); Invoice.arg_rate := None;
     Invoice.arg_description := None; Invoice.arg_date := "2025-02-30";
     Invoice.arg_csv := None; Invoice.arg_output := None;
     Invoice.arg_config := None |}.

(** A decimal that is not finite, or fits the context. *)
Definition fits_context (d : decimal) : Prop :=
  match d with
  | Dec _ _ _ => within_context d = true
  | _ => True
  end.

(** The decimal c * 10^e is the whole number [K] of cents. *)
Definition whole_cents (c e K : Z) : Prop :=
  if 0 <=? e + 2 then K = c * 10 ^ (e + 2) else c = K * 10 ^ (- (e + 2)).

(** [K] cents written as an amount: the dollars in groups of three digits,
    a point, and the two digits of the cents. *)
Definition cents_text (neg : bool) (K : Z) : string :=
  "$" +:+ (if neg then "-" else "")
  +:+ group_thousands (digits_of_Z (K / 100)) +:+ "."
  +:+ zfill 2 (digits_of_Z (K mod 100)).


(** A line item whose hours and rate are floats that [str] prints with one
    decimal place (10.0, 7.5, 150.0). *)
Definition one_decimal (item : Invoice.line_item) : bool :=
  match of_float_str (Invoice.hours item), Invoice.rate item with
  | Dec _ c1 e1, Invoice.PFloat r =>
      match of_float_str r with
      | Dec _ c2 e2 => (e1 =? -1) && (e2 =? -1) && (0 <=? c1) && (0 <=? c2)
      | _ => false
      end
  | _, _ => false
  end.

(** The amount of such an item in cents, with its sign and without. *)
Definition item_cents (item : Invoice.line_item) : Z :=
  match of_float_str (Invoice.hours item), Invoice.Decimal_of_str (Invoice.rate item) with
  | Dec s1 c1 _, Dec s2 c2 _ => Spec.signed s1 c1 * Spec.signed s2 c2
  | _, _ => 0
  end.

Definition sum_cents (line_items : list Invoice.line_item) : Z :=
  fold_right (fun item acc => item_cents item + acc) 0 line_items.

Definition sum_abs_cents (line_items : list Invoice.line_item) : Z :=
  fold_right (fun item acc => Z.abs (item_cents item) + acc) 0 line_items.

(** The running total of the loop over such items: it is the zero the loop
    starts from, or its exponent is -2 and its coefficient is the sum [S] of
    the cents so far. *)
Definition cents_so_far (total : decimal) (S : Z) : Prop :=
  exists s c e, total = Dec s c e /\ 0 <= c
                /\ ((e = 0 /\ c = 0 /\ S = 0) \/ (e = -2 /\ Spec.signed s c = S)).

(** 7.5 hours at a rate of 150.0. *)
Definition f7_5 : float := of_decimal false 75 (-1).
Definition f150 : float := of_decimal false 150 0.

Definition with_account (a : Publisher.args) (account : option string)
  : Publisher.args :=
  {| Publisher.arg_config := Publisher.arg_config a;
     Publisher.arg_vault := Publisher.arg_vault a;
     Publisher.arg_title := Publisher.arg_title a;
     Publisher.arg_account := account |}.



(** A config file that is listed in its directory but is gone when it is
    opened. *)
Definition vanishing_file : Publisher.env :=
  {| Publisher.path_exists := fun _ => true;
     Publisher.read_text := fun p => Raise (FileNotFoundError p);
     Publisher.process := fun _ => None |}.

End More.
(* ===================================================================== *)
(** * The embedding on values that Python prints *)
(* ===================================================================== *)

Section Checks.
Import PyFloat PyDecimal.

(** [float("0.1")] is 0x1.999999999999ap-4, and it is canonical. *)
Example float_one_tenth :
  parse "0.1" = Some (Finite false 7205759403792794 (-56))
  /\ canonical (Finite false 7205759403792794 (-56)) = true.
Proof. split; vm_compute; reflexivity. Qed.

(** [float] reads what Python reads and refuses what Python refuses. *)
Example float_literals :
  map (fun s => Spec.is_ok (Invoice.float_of_field (Some s)))
    [" 1.5 "; "1_000"; ".5"; "5."; "1e5"; "-Infinity"; "nan";
     ""; "abc"; "1__0"; "."; "1e"; "0x10"; "1 2"]
  = [true; true; true; true; true; true; true;
     false; false; false; false; false; false; false].
Proof. vm_compute. reflexivity. Qed.

(** [Decimal(str(x))] for 0.1, 3.0, 1e16, 1e23 and 0.1 + 0.2. *)
Example decimal_of_floats :
  map of_float_str
    [Demo.f0_1; Demo.f3; of_decimal false 1 16; of_decimal false 1 23;
     Finite false 5404319552844596 (-54)]
  = [Dec false 1 (-1); Dec false 30 (-1); Dec false 1 16; Dec false 1 23;
     Dec false 30000000000000004 (-17)].
Proof. vm_compute. reflexivity. Qed.

(** [Decimal("0.1") * Decimal("3.0")] is [Decimal("0.30")]; infinity times
    zero is trapped. *)
Example decimal_products :
  mul (Dec false 1 (-1)) (Dec false 30 (-1)) = Ok (Dec false 30 (-2))
  /\ mul (DInf false) (Dec false 0 0) = Raise InvalidOperation.
Proof. split; reflexivity. Qed.

(** The [f] presentation type rounds the binary value, ties to even:
    1234567.891, 0.125, 1.005, -0.001, and 0.35 with one digit. *)
Example float_formats :
  map (format_f true 2)
    [of_decimal false 1234567891 (-3); of_decimal false 125 (-3);
     of_decimal false 1005 (-3); of_decimal true 1 (-3)]
  = ["1,234,567.89"; "0.12"; "1.00"; "-0.00"]
  /\ format_f false 1 (of_decimal false 35 (-2)) = "0.3".
Proof. split; vm_compute; reflexivity. Qed.

(** [strptime] takes a month and a day without the leading zero and refuses
    a day the month does not have. *)
Example dates :
  map Invoice.strptime ["2025-12-02"; "2025-1-5"; "2025-02-29"]
  = [Ok (2025, 12, 2); Ok (2025, 1, 5);
     Raise (ValueError "day is out of range for month")].
Proof. vm_compute. reflexivity. Qed.

(** [--hours 10 --rate 100 --date 2025-01-15] with the prefix "INV-": the
    invoice number, the item's row and the total. *)
Example ten_hours_at_100 :
  match Invoice.main Demo.E
          {| Invoice.arg_hours := Some Demo.f10; Invoice.arg_rate := Some Demo.f100;
             Invoice.arg_description := None; Invoice.arg_date := "2025-01-15";
             Invoice.arg_csv := None; Invoice.arg_output := None;
             Invoice.arg_config := None |}
  with
  | ([Invoice.Build path doc; Invoice.Print line], Ok tt) =>
      path = "invoice_20250115.pdf"
      /\ line = "Invoice created: invoice_20250115.pdf"
      /\ Invoice.doc_meta doc
         = "<b>Date:</b> January 15, 2025<br/><b>Invoice #:</b> INV-2025-01-15"
      /\ nth 1 (Invoice.doc_table doc) []
         = [Some "10.0"; Some "Consulting Services"; Some "$100.00"; Some "$1,000.00"]
      /\ List.last (Invoice.doc_table doc) []
         = [Some ""; Some ""; Some "Total"; Some "$1,000.00"]
  | _ => False
  end.
Proof. vm_compute. repeat split. Qed.

End Checks.

(* ===================================================================== *)
(** * The invoice builder's command line *)
(* ===================================================================== *)

Section MainFlow.
Import PyFloat.
Variable E : Invoice.env.

Lemma if_truthy_None {A} (t : A -> bool) : Invoice.if_truthy t None = None.
Proof. reflexivity. Qed.

Lemma zero_is_falsy (neg : bool) (e : Z) :
  Invoice.if_truthy truthy (Some (Finite neg 0 e)) = None.
Proof. reflexivity. Qed.

(** [main] reads [--hours] only through its truthy value, and only when
    [--csv] is falsy. *)
Lemma main_hours_irrelevant (a : Invoice.args) (h h' : option float) :
  (Invoice.if_truthy str_truthy (Invoice.arg_csv a) <> None
   \/ Invoice.if_truthy truthy h = Invoice.if_truthy truthy h') ->
  Invoice.main E (Spec.with_hours a h) = Invoice.main E (Spec.with_hours a h').
Proof.
  intros H. unfold Invoice.main. cbn [Spec.with_hours Invoice.arg_config
    Invoice.arg_csv Invoice.arg_hours Invoice.arg_date].
  destruct (lift (Invoice.load_config E _)) as [t [cfg|ex]]; [|reflexivity].
  cbn [bind]. destruct (Invoice.if_truthy str_truthy (Invoice.arg_csv a)) as [csv|] eqn:Hcsv.
  - reflexivity.
  - destruct H as [H|H]; [congruence|]. rewrite H. reflexivity.
Qed.

Lemma with_hours_same (a : Invoice.args) :
  Spec.with_hours a (Invoice.arg_hours a) = a.
Proof. destruct a; reflexivity. Qed.

Lemma with_rate_same (a : Invoice.args) :
  Spec.with_rate a (Invoice.arg_rate a) = a.
Proof. destruct a; reflexivity. Qed.

(** Without a truthy [--csv] and a truthy [--hours], a run that gets its
    configuration only prints the usage message. *)
Lemma main_no_source (a : Invoice.args) (cfg : Invoice.config) :
  Spec.config_of E a = Ok cfg ->
  Invoice.if_truthy str_truthy (Invoice.arg_csv a) = None ->
  Invoice.if_truthy truthy (Invoice.arg_hours a) = None ->
  Spec.usage_error_run (Invoice.main E a).
Proof.
  unfold Spec.config_of, Spec.usage_error_run, Invoice.main. intros -> -> ->.
  reflexivity.
Qed.

End MainFlow.

(** C9. The source of the line items is chosen by the truthiness of the
    parsed values.  A run with [--hours 0] (either zero) and no [--csv] is the
    run with [--hours] left out, and once the configuration has loaded that
    run is the usage error: the message is printed and nothing is built.  In
    the same way a run with [--rate 0] is the run with [--rate] left out: the
    line item gets the configuration's default rate. *)
Theorem C9_zero_hours_and_zero_rate_count_as_absent :
  (forall (E : Invoice.env) (a : Invoice.args) (neg : bool) (e : Z),
      Invoice.arg_csv a = None ->
      Invoice.arg_hours a = Some (PyFloat.Finite neg 0 e) ->
      Invoice.main E a = Invoice.main E (Spec.with_hours a None)
      /\ (forall cfg, Spec.config_of E a = Ok cfg ->
            Spec.usage_error_run (Invoice.main E a)
            /\ filter Spec.is_build (events (Invoice.main E a)) = []))
  /\ (forall (E : Invoice.env) (a : Invoice.args) (neg : bool) (e : Z),
        Invoice.arg_rate a = Some (PyFloat.Finite neg 0 e) ->
        Invoice.main E a = Invoice.main E (Spec.with_rate a None)
        /\ (forall ic h, Invoice.rate (Invoice.single_item a ic h)
                         = Invoice.default_rate ic)).
Proof.
  split.
  - intros E a neg e Hcsv Hh. split.
    + rewrite <- (with_hours_same a) at 1. rewrite Hh.
      apply main_hours_irrelevant. right. reflexivity.
    + intros cfg Hcfg.
      assert (U : Spec.usage_error_run (Invoice.main E a)).
      { apply (main_no_source E a cfg Hcfg).
        - rewrite Hcsv. reflexivity.
        - rewrite Hh. reflexivity. }
      split; [exact U|]. rewrite U. reflexivity.
  - intros E a neg e Hr. split.
    + unfold Invoice.main, Invoice.single_item.
      cbn [Spec.with_rate Invoice.arg_config Invoice.arg_csv Invoice.arg_hours
           Invoice.arg_date Invoice.arg_rate Invoice.arg_description].
      rewrite Hr. reflexivity.
    + intros ic h. unfold Invoice.single_item. rewrite Hr. reflexivity.
Qed.

(** [--hours 0] alone is the usage error; [--rate 0] leaves the default rate
    of 150. *)
Lemma C9_witness :
  Invoice.main Demo.E (Spec.with_hours Demo.no_args (Some PyFloat.zero))
  = ([Invoice.Print Invoice.usage_error], Ok tt)
  /\ Invoice.rate
       (Invoice.single_item (Spec.with_rate Demo.no_args (Some PyFloat.zero))
          (Invoice.invoice Demo.cfg) Demo.f10)
     = Invoice.PInt 150.
Proof.
  split.
  - destruct (proj1 C9_zero_hours_and_zero_rate_count_as_absent Demo.E
                (Spec.with_hours Demo.no_args (Some PyFloat.zero)) false (-1074)
                eq_refl eq_refl) as [_ H].
    destruct (H Demo.cfg eq_refl) as [U _]. exact U.
  - destruct (proj2 C9_zero_hours_and_zero_rate_count_as_absent Demo.E
                (Spec.with_rate Demo.no_args (Some PyFloat.zero)) false (-1074)
                eq_refl) as [_ H].
    exact (H (Invoice.invoice Demo.cfg) Demo.f10).
Defined.

Section OutputPath.

Lemma append_nil (y : string) : "" +:+ y = y.
Proof. reflexivity. Qed.

Lemma append_cons (c : ascii) (x y : string) : String c x +:+ y = String c (x +:+ y).
Proof. reflexivity. Qed.

Lemma append_assoc (x y z : string) : x +:+ y +:+ z = (x +:+ y) +:+ z.
Proof.
  induction x as [|c x IH]; [reflexivity|].
  rewrite !append_cons. now rewrite IH.
Qed.

Lemma replace_char_app (old : ascii) (new s1 s2 : string) :
  replace_char old new (s1 +:+ s2)
  = replace_char old new s1 +:+ replace_char old new s2.
Proof.
  induction s1 as [|c s1 IH]; [reflexivity|].
  rewrite append_cons. cbn [replace_char]. rewrite IH.
  destruct (Ascii.eqb c old); [apply append_assoc|reflexivity].
Qed.

Lemma replace_dash_digits (s : string) :
  Spec.all_digits s = true -> replace_char "-" "" s = s.
Proof.
  unfold Spec.all_digits, chars.
  induction s as [|c s IH]; cbn [list_ascii_of_string forallb replace_char]; [reflexivity|].
  intros H. apply andb_prop in H as [Hc Hs].
  destruct (Ascii.eqb c "-") eqn:Heq.
  - apply Ascii.eqb_eq in Heq. subst c. discriminate Hc.
  - now rewrite IH.
Qed.

Lemma create_invoice_builds_at (E : Invoice.env) (date : string)
  (items : list Invoice.line_item) (path : string) (cfg : Invoice.config)
  (p : string) (doc : Invoice.document) :
  In (Invoice.Build p doc) (events (Invoice.create_invoice E date items path cfg)) ->
  p = path.
Proof.
  unfold Invoice.create_invoice.
  destruct (Invoice.strptime date) as [d|ex]; cbn; [|tauto].
  destruct (Invoice.build_table items) as [tbl|ex]; cbn; [|tauto].
  destruct (Invoice.build_error E path) as [ex|]; cbn; [tauto|].
  intros [H|[H|[]]]; [|discriminate H]. now inversion H.
Qed.

End OutputPath.

(** C2, as the code has it.  With neither [--hours] nor [--csv], a run whose
    configuration loads is the usage error: it prints "Error: Must provide
    either --hours or --csv", returns without an exception and builds no
    invoice.  With both, there is no error: [--csv] is tested first, so the
    run is the one that [--csv] alone gives, and [--hours] is not looked at. *)
Theorem C2_neither_is_usage_error_and_csv_wins :
  (forall (E : Invoice.env) (a : Invoice.args) (cfg : Invoice.config),
      Spec.config_of E a = Ok cfg ->
      Invoice.arg_csv a = None ->
      Invoice.arg_hours a = None ->
      Spec.usage_error_run (Invoice.main E a)
      /\ filter Spec.is_build (events (Invoice.main E a)) = [])
  /\ (forall (E : Invoice.env) (a : Invoice.args) (csv : string) (h : PyFloat.float),
        Invoice.arg_csv a = Some csv ->
        csv <> "" ->
        Invoice.arg_hours a = Some h ->
        Invoice.main E a = Invoice.main E (Spec.with_hours a None)).
Proof.
  split.
  - intros E a cfg Hcfg Hcsv Hh.
    assert (U : Spec.usage_error_run (Invoice.main E a)).
    { apply (main_no_source E a cfg Hcfg).
      - rewrite Hcsv. reflexivity.
      - rewrite Hh. reflexivity. }
    split; [exact U|]. rewrite U. reflexivity.
  - intros E a csv h Hcsv Hne Hh.
    rewrite <- (with_hours_same a) at 1.
    apply main_hours_irrelevant. left.
    rewrite Hcsv. destruct csv; [congruence|]. discriminate.
Qed.

(** No option at all is the usage error; [--hours 10 --csv line_items.csv]
    runs as [--csv line_items.csv] does. *)
Lemma C2_witness :
  Spec.usage_error_run (Invoice.main Demo.E Demo.no_args)
  /\ Invoice.main Demo.E Demo.both_args
     = Invoice.main Demo.E (Spec.with_hours Demo.both_args None).
Proof.
  split.
  - apply (proj1 C2_neither_is_usage_error_and_csv_wins Demo.E Demo.no_args Demo.cfg);
      reflexivity.
  - apply (proj2 C2_neither_is_usage_error_and_csv_wins Demo.E Demo.both_args
             "line_items.csv" (PyFloat.of_decimal false 10 0)).
    + reflexivity.
    + discriminate.
    + reflexivity.
Defined.

(** C2 as it is written fails where both options are given: the run with
    [--hours 10 --csv line_items.csv] is no usage error, it builds the
    invoice from the CSV file. *)
Lemma C2_both_sources_build_the_invoice :
  (exists h, Invoice.arg_hours Demo.both_args = Some h)
  /\ (exists p, Invoice.arg_csv Demo.both_args = Some p)
  /\ ~ Spec.usage_error_run (Invoice.main Demo.E Demo.both_args)
  /\ exists doc,
       Invoice.main Demo.E Demo.both_args
       = ([Invoice.Build "invoice_20251202.pdf" doc;
           Invoice.Print "Invoice created: invoice_20251202.pdf"], Ok tt).
Proof.
  split; [eexists; reflexivity|].
  split; [eexists; reflexivity|].
  split.
  - unfold Spec.usage_error_run. vm_compute. discriminate.
  - eexists. vm_compute. reflexivity.
Qed.

(** C7, as the code has it.  The path the invoice is built at is the value of
    [--output] when that is a non-empty text; when [--output] is left out or
    empty it is the filename prefix, "_", the text of [--date] without its
    dashes, and ".pdf" -- which is {prefix}_{YYYYMMDD}.pdf when the date is
    written as digits, a dash, digits, a dash and digits. *)
Theorem C7_output_path :
  forall (E : Invoice.env) (a : Invoice.args) (cfg : Invoice.config),
    Spec.config_of E a = Ok cfg ->
    let path := Invoice.output_path_of a (Invoice.invoice cfg) in
    let prefix := Invoice.filename_prefix (Invoice.invoice cfg) in
    (forall p doc, In (Invoice.Build p doc) (events (Invoice.main E a)) -> p = path)
    /\ (forall o, Invoice.arg_output a = Some o -> o <> "" -> path = o)
    /\ (Invoice.arg_output a = None \/ Invoice.arg_output a = Some "" ->
        path = prefix +:+ "_" +:+ replace_char "-" "" (Invoice.arg_date a) +:+ ".pdf"
        /\ forall y m d,
             Spec.all_digits y = true -> Spec.all_digits m = true ->
             Spec.all_digits d = true ->
             Invoice.arg_date a = y +:+ "-" +:+ m +:+ "-" +:+ d ->
             path = prefix +:+ "_" +:+ y +:+ m +:+ d +:+ ".pdf").
Proof.
  intros E a cfg Hcfg path prefix. split; [|split].
  - intros p doc. unfold Invoice.main. unfold Spec.config_of in Hcfg. rewrite Hcfg.
    cbn [lift bind]. fold path.
    destruct (Invoice.if_truthy str_truthy (Invoice.arg_csv a)) as [csv|].
    + destruct (Invoice.load_line_items_from_csv E csv) as [items|ex]; cbn [lift bind].
      * destruct (Invoice.create_invoice E _ items path cfg) as [t r] eqn:Hc.
        cbn. intros Hin.
        apply (create_invoice_builds_at E (Invoice.arg_date a) items path cfg p doc).
        rewrite Hc. exact Hin.
      * cbn. tauto.
    + destruct (Invoice.if_truthy PyFloat.truthy (Invoice.arg_hours a)) as [h|].
      * destruct (Invoice.create_invoice E _ _ path cfg) as [t r] eqn:Hc.
        cbn. intros Hin. eapply create_invoice_builds_at. erewrite Hc. exact Hin.
      * cbn. intros [H|[]]. discriminate H.
  - intros o Ho Hne. subst path. unfold Invoice.output_path_of. rewrite Ho.
    destruct o; [congruence|reflexivity].
  - intros Ho.
    assert (Hp : path = prefix +:+ "_" +:+ replace_char "-" "" (Invoice.arg_date a) +:+ ".pdf").
    { subst path prefix. unfold Invoice.output_path_of.
      destruct Ho as [-> | ->]; reflexivity. }
    split; [exact Hp|].
    intros y m d Hy Hm Hd Hdate. rewrite Hp, Hdate.
    rewrite !replace_char_app.
    rewrite (replace_dash_digits y Hy), (replace_dash_digits m Hm),
      (replace_dash_digits d Hd).
    change (replace_char "-" "" "-") with "".
    rewrite !append_nil, <- !append_assoc. reflexivity.
Qed.

(** [--output march.pdf] is used as it is; without [--output] the date
    2025-12-02 gives invoice_20251202.pdf. *)
Lemma C7_witness :
  Invoice.output_path_of (Demo.with_output Demo.no_args (Some "march.pdf"))
    (Invoice.invoice Demo.cfg) = "march.pdf"
  /\ Invoice.output_path_of Demo.no_args (Invoice.invoice Demo.cfg)
     = "invoice_20251202.pdf".
Proof.
  split.
  - apply (proj1 (proj2 (C7_output_path Demo.E
             (Demo.with_output Demo.no_args (Some "march.pdf")) Demo.cfg eq_refl))
             "march.pdf" eq_refl).
    discriminate.
  - destruct (proj2 (proj2 (C7_output_path Demo.E Demo.no_args Demo.cfg eq_refl))
                (or_introl eq_refl)) as [_ H].
    apply (H "2025" "12" "02"); reflexivity.
Defined.

(** C7 as it is written fails for an [--output] that is given but empty: the
    value is not used, the invoice is built at the derived path. *)
Lemma C7_empty_output_is_not_used :
  Invoice.arg_output Demo.empty_output_args = Some ""
  /\ Invoice.output_path_of Demo.empty_output_args (Invoice.invoice Demo.cfg) <> ""
  /\ exists doc,
       Invoice.main Demo.E Demo.empty_output_args
       = ([Invoice.Build "invoice_20251202.pdf" doc;
           Invoice.Print "Invoice created: invoice_20251202.pdf"], Ok tt).
Proof.
  split; [reflexivity|]. split.
  - vm_compute. discriminate.
  - eexists. vm_compute. reflexivity.
Qed.

(* ===================================================================== *)
(** * The secret publisher *)
(* ===================================================================== *)

Section StoreConfig.
Import Publisher.
Variable E : env.
Variables (config_path vault title : string) (account : option string).

Lemma item_exists_is_exit_code (r : completed) :
  process E (get_cmd vault title account) = Some r ->
  item_exists E vault title account
  = ([Run (get_cmd vault title account)], Ok (returncode r =? 0)).
Proof.
  intros H. unfold item_exists, subprocess_run. rewrite H. reflexivity.
Qed.

Lemma item_exists_without_op :
  process E (get_cmd vault title account) = None ->
  item_exists E vault title account
  = ([Run (get_cmd vault title account)], Raise (FileNotFoundError "op")).
Proof.
  intros H. unfold item_exists, subprocess_run. rewrite H. reflexivity.
Qed.

(** Every run of [store_config] whose lookup ran. *)
Lemma store_config_after_lookup (content : string) (r : completed) :
  path_exists E config_path = true ->
  read_text E config_path = Ok content ->
  process E (get_cmd vault title account) = Some r ->
  let found := returncode r =? 0 in
  let cmd := Spec.chosen_cmd vault title account found content in
  store_config E config_path vault title account
  = match process E cmd with
    | None =>
        ([Run (get_cmd vault title account); Run cmd; PrintErr op_not_found],
         Raise (SystemExit 1))
    | Some r2 =>
        if returncode r2 =? 0 then
          ([Run (get_cmd vault title account); Run cmd; Print (Spec.success_line vault title found)],
           Ok (reference vault title))
        else
          ([Run (get_cmd vault title account); Run cmd;
            PrintErr ("Failed to store in 1Password: " +:+ strip (stderr r2))],
           Raise (SystemExit 1))
    end.
Proof.
  intros Hex Hrd Hget found cmd. unfold store_config.
  rewrite Hex, Hrd. cbn [negb lift bind].
  rewrite (item_exists_is_exit_code r Hget). fold found.
  subst cmd. unfold Spec.chosen_cmd, Spec.success_line.
  destruct found; cbn [bind]; unfold subprocess_run; cbn [emit bind].
  - destruct (process E (edit_cmd vault title account content)) as [r2|]; [|reflexivity].
    destruct (returncode r2 =? 0); reflexivity.
  - destruct (process E (create_cmd vault title account content)) as [r2|]; [|reflexivity].
    destruct (returncode r2 =? 0); reflexivity.
Qed.

(** A run of [store_config] that returns has returned the reference, and the
    last thing it printed ends with it. *)
Lemma store_config_returns (t : list event) (ref : string) :
  store_config E config_path vault title account = (t, Ok ref) ->
  ref = reference vault title
  /\ exists found content,
       t = [Run (get_cmd vault title account); Run (Spec.chosen_cmd vault title account found content);
            Print (Spec.success_line vault title found)].
Proof.
  destruct (path_exists E config_path) eqn:Hex.
  2:{ unfold store_config. rewrite Hex. cbn. discriminate. }
  destruct (read_text E config_path) as [content|ex] eqn:Hrd.
  2:{ unfold store_config. rewrite Hex, Hrd. cbn. discriminate. }
  destruct (process E (get_cmd vault title account)) as [r|] eqn:Hget.
  - rewrite (store_config_after_lookup content r Hex Hrd Hget).
    cbv zeta.
    destruct (process E (Spec.chosen_cmd vault title account (returncode r =? 0) content))
      as [r2|]; [|intros H; discriminate H].
    destruct (returncode r2 =? 0); [|intros H; discriminate H].
    intros H. inversion H. split; [reflexivity|]. eauto.
  - unfold store_config. rewrite Hex, Hrd. cbn [negb lift bind].
    rewrite (item_exists_without_op Hget). cbn. discriminate.
Qed.



Lemma create_is_not_get (content : string) :
  create_cmd vault title account content <> get_cmd vault title account.
Proof. unfold create_cmd, get_cmd. intros H. simpl in H. discriminate H. Qed.

End StoreConfig.




(** C8, as the code has it.  A run of the publisher that succeeds returns and
    prints the reference "op://" vault "/" title "/config": it is [main]'s
    [ref], the last line [store_config] prints ends with it, and [main] quotes
    it in the line it prints next. *)
Theorem C8_reference_is_op_vault_title_config :
  forall (E : Publisher.env) (a : Publisher.args) (t : list Publisher.event),
    Publisher.main E a = (t, Ok tt) ->
    let ref := "op://" +:+ Publisher.arg_vault a +:+ "/" +:+ Publisher.arg_title a
               +:+ "/config" in
    Publisher.store_config E (Publisher.arg_config a) (Publisher.arg_vault a)
      (Publisher.arg_title a) (Publisher.arg_account a)
    = (removelast t, Ok ref)
    /\ exists cmds verb flag,
         t = cmds
             ++ [Publisher.Print (verb +:+ ref);
                 Publisher.Print
                   (String "010" "Use with: uv run create_invoice.py --hours 100 --op-item "
                    +:+ String "034" ref +:+ String "034" flag)].
Proof.
  intros E a t Hmain ref. unfold Publisher.main in Hmain.
  destruct (Publisher.store_config E _ _ _ _) as [t0 [ref0|ex]] eqn:Hs;
    cbn in Hmain; [|discriminate Hmain].
  destruct (store_config_returns E _ _ _ _ t0 ref0 Hs) as [-> (found & content & ->)].
  inversion Hmain; subst t. split; [reflexivity|].
  exists [Publisher.Run (Publisher.get_cmd (Publisher.arg_vault a) (Publisher.arg_title a)
                           (Publisher.arg_account a));
          Publisher.Run (Spec.chosen_cmd (Publisher.arg_vault a) (Publisher.arg_title a)
                           (Publisher.arg_account a) found content)].
  eexists. eexists. unfold Spec.success_line. reflexivity.
Qed.

(** Vault "Private" and title "invoice-config". *)
Lemma C8_witness :
  exists t,
    Publisher.store_config (Demo.publisher (Some 1)) "config.toml" "Private"
      "invoice-config" None
    = (t, Ok "op://Private/invoice-config/config").
Proof.
  eexists.
  exact (proj1 (C8_reference_is_op_vault_title_config (Demo.publisher (Some 1))
           {| Publisher.arg_config := "config.toml"; Publisher.arg_vault := "Private";
              Publisher.arg_title := "invoice-config"; Publisher.arg_account := None |}
           _ eq_refl)).
Defined.

(** C8 as it is written fails on every successful run: the reference starts
    with "op://", not with "store://". *)
Lemma C8_reference_is_not_store_scheme :
  exists t ref,
    Publisher.store_config (Demo.publisher (Some 1)) "config.toml" "Private"
      "invoice-config" None = (t, Ok ref)
    /\ In (Publisher.Print ("Config stored in 1Password: " +:+ ref)) t
    /\ ref <> "store://" +:+ "Private" +:+ "/" +:+ "invoice-config" +:+ "/config".
Proof.
  eexists. eexists. split; [vm_compute; reflexivity|]. split.
  - simpl. tauto.
  - discriminate.
Qed.



(* ===================================================================== *)
(** * Loading line items from a CSV file *)
(* ===================================================================== *)

Section CsvRows.
Import Invoice.







End CsvRows.




(* ===================================================================== *)
(** * The line-item table *)
(* ===================================================================== *)

Section Table.
Import Invoice.

(** The rate cell of an item's row starts with a dollar sign, so the row is
    no blank row. *)
Lemma item_row_not_blank (item : line_item) (row : list cell) :
  Spec.row_of_item item row -> row <> blank_row.
Proof.
  intros [amount H]. unfold item_row in H.
  destruct (format_number 2 (rate item)); cbn [rbind] in H; [|discriminate].
  inversion H. unfold blank_row. intros Heq. inversion Heq.
Qed.

(** The loop appends one row per item, in order, and leaves the rows that
    were there alone. *)
Lemma add_items_rows (line_items : list line_item) :
  forall (total : PyDecimal.decimal) (table_data : table)
         (total' : PyDecimal.decimal) (table_data' : table),
    add_items total table_data line_items = Ok (total', table_data') ->
    exists rows, table_data' = table_data ++ rows
                 /\ Forall2 Spec.row_of_item line_items rows.
Proof.
  induction line_items as [|item rest IH]; intros total tbl total' tbl' H.
  - cbn in H. inversion H. exists []. split; [now rewrite app_nil_r|constructor].
  - cbn [add_items] in H.
    destruct (amount_of item) as [amount|]; cbn [rbind] in H; [|discriminate].
    destruct (PyDecimal.add total amount) as [t1|]; cbn [rbind] in H; [|discriminate].
    destruct (item_row item amount) as [row|] eqn:Hrow; cbn [rbind] in H; [|discriminate].
    destruct (IH _ _ _ _ H) as (rows & -> & Hrows).
    exists (row :: rows). split.
    + now rewrite <- app_assoc.
    + constructor; [exists amount; exact Hrow|exact Hrows].
Qed.

Lemma Forall2_length_eq {A B} (P : A -> B -> Prop) (l : list A) (l' : list B) :
  Forall2 P l l' -> length l' = length l.
Proof. induction 1; cbn; congruence. Qed.

Lemma padding_count (n : nat) :
  Z.to_nat (Z.max 0 (8 - Z.of_nat (S n))) = (7 - n)%nat.
Proof. lia. Qed.

End Table.

(** C5. The table handed to the renderer is the header row, one row per line
    item in order, blank rows, and the total row last.  Counting the header,
    the rows before the total row are never fewer than 8: with n items there
    are max(8, n + 1) of them, of which 7 - n are blank padding (none once
    n >= 7, e.g. for 10 items, where the table simply has 11 rows and the
    total).  No item row is itself a blank row. *)
Theorem C5_table_is_padded_to_eight_rows :
  forall (line_items : list Invoice.line_item) (table_data : Invoice.table),
    Invoice.build_table line_items = Ok table_data ->
    let n := length line_items in
    exists rows total,
      table_data
      = (Invoice.header_row :: rows) ++ repeat Invoice.blank_row (7 - n)
        ++ [Invoice.total_row total]
      /\ Invoice.invoice_total line_items = Ok total
      /\ length rows = n
      /\ Forall (fun row => row <> Invoice.blank_row) rows
      /\ length ((Invoice.header_row :: rows) ++ repeat Invoice.blank_row (7 - n))
         = Nat.max 8 (n + 1)
      /\ (7 <= n -> table_data = (Invoice.header_row :: rows) ++ [Invoice.total_row total])%nat.
Proof.
  intros line_items table_data H n. unfold Invoice.build_table in H.
  unfold Invoice.invoice_total.
  destruct (Invoice.add_items _ _ line_items) as [[total tbl]|] eqn:Hloop;
    cbn [rbind] in H |- *; [|discriminate].
  destruct (add_items_rows line_items _ _ _ _ Hloop) as (rows & -> & Hrows).
  pose proof (Forall2_length_eq _ _ _ Hrows) as Hlen. fold n in Hlen.
  exists rows, total. inversion H as [Htbl]. clear H Htbl.
  cbn [app length]. rewrite Hlen, padding_count.
  split; [now rewrite <- app_assoc|].
  split; [reflexivity|]. split; [reflexivity|]. split.
  - clear Hlen Hloop. induction Hrows; constructor; [|assumption].
    eapply item_row_not_blank; eassumption.
  - split.
    + rewrite length_app, repeat_length. cbn [length]. lia.
    + intros Hn. replace (7 - n)%nat with 0%nat by lia.
      cbn [repeat]. now rewrite app_nil_r.
Qed.

(** Ten items: the header, ten rows and the total row, no padding. *)
Lemma C5_witness :
  exists rows total,
    Invoice.build_table (repeat (Demo.item Demo.f10 Demo.f100) 10)
    = Ok ((Invoice.header_row :: rows) ++ [Invoice.total_row total])
    /\ length rows = 10%nat.
Proof.
  destruct (Invoice.build_table (repeat (Demo.item Demo.f10 Demo.f100) 10))
    as [table_data|e] eqn:Hb; [|vm_compute in Hb; discriminate Hb].
  destruct (C5_table_is_padded_to_eight_rows _ table_data Hb)
    as (rows & total & _ & _ & Hlen & _ & _ & Hfit).
  exists rows, total. split.
  - f_equal. apply Hfit. rewrite repeat_length. lia.
  - exact Hlen.
Defined.

(* ===================================================================== *)
(** * Currency texts *)
(* ===================================================================== *)

Section Currency.
Import PyFloat.

Lemma chars_text (l : list ascii) : chars (text l) = l.
Proof. apply list_ascii_of_string_of_list_ascii. Qed.

Lemma chars_append (s1 s2 : string) : chars (s1 +:+ s2) = chars s1 ++ chars s2.
Proof.
  unfold chars. induction s1 as [|c s1 IH]; [reflexivity|].
  rewrite append_cons. cbn [list_ascii_of_string app]. now rewrite IH.
Qed.

(** The digits printed for a number are digits, and there is at least one. *)
Lemma uint_digits (d : Decimal.uint) :
  forallb is_digit (chars (NilEmpty.string_of_uint d)) = true.
Proof. induction d; cbn; auto. Qed.

Lemma digits_of_N_digits (n : N) : forallb is_digit (chars (digits_of_N n)) = true.
Proof.
  unfold digits_of_N, NilZero.string_of_uint.
  destruct (N.to_uint n); try apply uint_digits. reflexivity.
Qed.

Lemma digits_of_N_nonempty (n : N) : chars (digits_of_N n) <> [].
Proof.
  unfold digits_of_N, NilZero.string_of_uint.
  destruct (N.to_uint n); cbn; discriminate.
Qed.

Lemma cents_two_digits (r : Z) :
  0 <= r < 100 -> Spec.two_digit_text (zfill 2 (digits_of_Z r)) = true.
Proof.
  intros Hr.
  assert (Hall : forallb (fun n => Spec.two_digit_text (zfill 2 (digits_of_Z (Z.of_nat n))))
                   (seq 0 100) = true) by (vm_compute; reflexivity).
  rewrite forallb_forall in Hall.
  specialize (Hall (Z.to_nat r)). rewrite Z2Nat.id in Hall by lia.
  apply Hall. apply in_seq. lia.
Qed.

(** Grouping by thousands: whatever follows, if it starts a group or the
    cents, the grouped digits in front of it make a well-formed amount. *)
Lemma group3_leading (n : nat) :
  forall (R tail : list ascii),
    (length R <= n)%nat -> R <> [] ->
    forallb is_digit R = true ->
    Spec.groups_then_cents tail = true ->
    Spec.leading_group (rev (group3_rev R) ++ tail) = true.
Proof.
  induction n as [|n IH]; intros R tail Hlen Hne Hd Ht.
  { destruct R; [congruence|cbn in Hlen; lia]. }
  destruct R as [|a [|b [|c [|d R]]]]; [congruence| | | |].
  - cbn in Hd |- *. apply andb_prop in Hd as [-> _]. rewrite Ht. reflexivity.
  - cbn [forallb] in Hd. apply andb_prop in Hd as [Ha Hd].
    apply andb_prop in Hd as [Hb _].
    cbn [group3_rev rev app Spec.leading_group]. rewrite Ha, Hb, Ht.
    cbn. apply orb_true_r.
  - cbn [forallb] in Hd. apply andb_prop in Hd as [Ha Hd].
    apply andb_prop in Hd as [Hb Hd]. apply andb_prop in Hd as [Hc _].
    cbn [group3_rev rev app Spec.leading_group]. rewrite Ha, Hb, Hc, Ht.
    cbn. rewrite !orb_true_r. reflexivity.
  - cbn [forallb] in Hd. apply andb_prop in Hd as [Ha Hd].
    apply andb_prop in Hd as [Hb Hd]. apply andb_prop in Hd as [Hc Hd].
    change (group3_rev (a :: b :: c :: d :: R))
      with (a :: b :: c :: ","%char :: group3_rev (d :: R)).
    change (rev (a :: b :: c :: ","%char :: group3_rev (d :: R)))
      with ((((rev (group3_rev (d :: R)) ++ [","%char]) ++ [c]) ++ [b]) ++ [a]).
    rewrite <- !app_assoc. cbn [app].
    apply IH.
    + cbn [length] in Hlen |- *. lia.
    + discriminate.
    + exact Hd.
    + cbn [Spec.groups_then_cents]. rewrite Ha, Hb, Hc, Ht. reflexivity.
Qed.

Lemma forallb_rev {A} (f : A -> bool) (l : list A) :
  forallb f (rev l) = forallb f l.
Proof.
  induction l as [|x l IH]; [reflexivity|].
  cbn [rev forallb]. rewrite forallb_app, IH. cbn. rewrite andb_true_r. apply andb_comm.
Qed.

Lemma cents_tail (s : string) :
  Spec.two_digit_text s = true -> Spec.groups_then_cents ("."%char :: chars s) = true.
Proof.
  unfold Spec.two_digit_text. destruct (chars s) as [|a [|b [|c l]]]; try discriminate.
  intros H. cbn. rewrite andb_true_r. exact H.
Qed.

(** The grouped integer part followed by the point and the cents. *)
Lemma amount_shape (ip fp : string) :
  chars ip <> [] -> forallb is_digit (chars ip) = true -> Spec.two_digit_text fp = true ->
  Spec.leading_group (chars (group_thousands ip +:+ "." +:+ fp)) = true.
Proof.
  intros Hne Hd Hfp. rewrite !chars_append. unfold group_thousands.
  rewrite chars_text. change (chars ".") with ["."%char]. cbn [app].
  apply (group3_leading (length (rev (chars ip)))).
  - lia.
  - intros H. apply (f_equal (@rev ascii)) in H. rewrite rev_involutive in H.
    exact (Hne H).
  - now rewrite forallb_rev.
  - now apply cents_tail.
Qed.

Lemma leading_group_digit (l : list ascii) :
  Spec.leading_group l = true ->
  exists c rest, l = c :: rest /\ is_digit c = true.
Proof.
  destruct l as [|c rest]; [discriminate|]. cbn [Spec.leading_group].
  intros H. apply andb_prop in H as [H _]. eauto.
Qed.

Lemma format_currency_shape (neg : bool) (m e : Z) :
  Spec.currency_shape (Invoice.format_currency (Finite neg m e)) = true.
Proof.
  unfold Invoice.format_currency, format_f.
  set (k := scaled_round 2 m e).
  set (ip := digits_of_Z (k / 10 ^ Z.of_nat 2)).
  set (fp := zfill 2 (digits_of_Z (k mod 10 ^ Z.of_nat 2))).
  assert (Hshape : Spec.leading_group (chars (group_thousands ip +:+ "." +:+ fp)) = true).
  { apply amount_shape.
    - apply digits_of_N_nonempty.
    - apply digits_of_N_digits.
    - apply cents_two_digits. apply Z.mod_pos_bound. reflexivity. }
  rewrite !chars_append in Hshape.
  unfold Spec.currency_shape.
  destruct neg; rewrite ?append_nil, !chars_append;
    change (chars "$") with ["$"%char]; cbn [app];
    change (Ascii.eqb "$" "$") with true; cbn [andb].
  - change (chars "-") with ["-"%char]. cbn [app].
    change (Ascii.eqb "-" "-") with true. exact Hshape.
  - destruct (leading_group_digit _ Hshape) as (c & rest & Heq & Hc).
    rewrite Heq in Hshape |- *.
    replace (Ascii.eqb c "-") with false.
    + exact Hshape.
    + symmetry. apply Ascii.eqb_neq. intros ->. discriminate Hc.
Qed.

End Currency.

(** C6, as the code has it.  With no line items the total is 0 and the table
    is the header row, seven blank rows and the total row, whose amount cell
    reads "$0.00".  Every finite amount is formatted as a dollar sign, a minus
    sign if the amount is negative, the whole part in groups of three digits
    separated by commas, a point and exactly two digits. *)
Theorem C6_empty_invoice_and_currency_format :
  Invoice.invoice_total [] = Ok (PyDecimal.Dec false 0 0)
  /\ Invoice.build_table []
     = Ok (Invoice.header_row :: repeat Invoice.blank_row 7
           ++ [[Some ""; Some ""; Some "Total"; Some "$0.00"]])
  /\ forall amount : PyFloat.float,
       PyFloat.is_finite amount = true ->
       Spec.currency_shape (Invoice.format_currency amount) = true.
Proof.
  split; [reflexivity|]. split; [vm_compute; reflexivity|].
  intros [neg m e| |] H; try discriminate H. apply format_currency_shape.
Qed.

(** 1234567.89 is a finite amount. *)
Lemma C6_witness :
  Spec.currency_shape
    (Invoice.format_currency (PyDecimal.to_float (PyDecimal.Dec false 123456789 (-2))))
  = true.
Proof.
  apply (proj2 (proj2 C6_empty_invoice_and_currency_format)). reflexivity.
Defined.

(** C6 as it is written fails for amounts that are not finite.  Ten to the
    200 hours at a rate of ten to the 200 is a product of two finite floats;
    its amount and the total are rendered "$inf", with no digits at all. *)
Lemma C6_overflowing_amount_is_not_a_currency_text :
  PyFloat.is_finite Demo.f1e200 = true
  /\ (exists row,
        Invoice.build_table [Demo.item Demo.f1e200 Demo.f1e200]
        = Ok (Invoice.header_row :: row :: repeat Invoice.blank_row 6
              ++ [[Some ""; Some ""; Some "Total"; Some "$inf"]])
        /\ nth 3 row None = Some "$inf")
  /\ Invoice.format_currency (PyFloat.Infinity false) = "$inf"
  /\ Spec.currency_shape "$inf" = false.
Proof.
  split; [reflexivity|]. split.
  - eexists. split; vm_compute; reflexivity.
  - split; reflexivity.
Qed.

(* ===================================================================== *)
(** * The total *)
(* ===================================================================== *)

Section Total.
Import PyDecimal.

Lemma signed_zero (neg : bool) : Spec.signed neg 0 = 0.
Proof. destruct neg; reflexivity. Qed.


Lemma to_Q_Dec (neg : bool) (c e : Z) :
  to_Q (Dec neg c e) = (inject_Z (Spec.signed neg c) * (10 # 1) ^ e)%Q.
Proof. reflexivity. Qed.

Lemma signed_mul (s1 s2 : bool) (c1 c2 : Z) :
  Spec.signed (xorb s1 s2) (c1 * c2) = Spec.signed s1 c1 * Spec.signed s2 c2.
Proof. destruct s1, s2; cbn; ring. Qed.




(** [_fix] leaves alone what fits the context. *)
Lemma fix_within_context (d : decimal) :
  within_context d = true -> _fix d = Ok d.
Proof.
  destruct d as [neg c e| |]; cbn [within_context]; try discriminate.
  intros H. apply andb_prop in H as [H Hmax]. apply andb_prop in H as [Hprec Hmin].
  apply Z.leb_le in Hprec, Hmin, Hmax. unfold _fix.
  assert (Hnd : 1 <= ndigits c).
  { unfold ndigits. pose proof (digits_of_N_nonempty (Z.to_N c)) as Hne.
    unfold digits_of_Z. destruct (digits_of_N (Z.to_N c)); [now contradict Hne|].
    cbn [String.length]. lia. }
  unfold Etiny, Etop, Emax, Emin, prec in *.
  destruct (c =? 0) eqn:Hc.
  - apply Z.eqb_eq in Hc. subst c. f_equal. f_equal. lia.
  - replace (999999 - 28 + 1 <? ndigits c + e - 28) with false by (symmetry; apply Z.ltb_ge; lia).
    destruct (ndigits c + e - 28 <? -999999 - 28 + 1) eqn:Hsub.
    + replace (e <? -999999 - 28 + 1) with false by (symmetry; apply Z.ltb_ge; lia).
      reflexivity.
    + replace (e <? ndigits c + e - 28) with false by (symmetry; apply Z.ltb_ge; lia).
      reflexivity.
Qed.


End Total.




(* ===================================================================== *)
(** * Further properties of the invoice builder *)
(* ===================================================================== *)

Section MoreCsv.
Import Invoice.





End MoreCsv.



Section MoreMain.
Import Invoice.
Variable E : env.

Lemma create_invoice_cases (date : string) (items : list line_item)
  (path : string) (cfg : config) :
  (exists e, create_invoice E date items path cfg = ([], Raise e))
  \/ (exists doc, create_invoice E date items path cfg
                  = ([Build path doc; Print ("Invoice created: " +:+ path)], Ok tt)).
Proof.
  unfold create_invoice.
  destruct (strptime date) as [d|e]; cbn [lift bind]; [|left; eauto].
  destruct (build_table items) as [tbl|e]; cbn [lift bind]; [|left; eauto].
  destruct (build_error E path) as [e|]; [left; unfold throw; eauto|].
  right. eexists. reflexivity.
Qed.

Lemma main_with_config (a : args) (cfg : config) :
  Spec.config_of E a = Ok cfg ->
  main E a
  = match if_truthy str_truthy (arg_csv a) with
    | Some csv =>
        do line_items <- @lift event _ (load_line_items_from_csv E csv);
        create_invoice E (arg_date a) line_items (output_path_of a (invoice cfg)) cfg
    | None =>
        match if_truthy PyFloat.truthy (arg_hours a) with
        | Some h =>
            create_invoice E (arg_date a) [single_item a (invoice cfg) h]
              (output_path_of a (invoice cfg)) cfg
        | None => emit (Print usage_error)
        end
    end.
Proof.
  unfold Spec.config_of, main. intros ->. cbn [lift bind].
  destruct (if_truthy str_truthy (arg_csv a)) as [csv|].
  - destruct (load_line_items_from_csv E csv) as [l|e]; cbn [lift bind]; [|reflexivity].
    destruct (create_invoice E _ _ _ _) as [t' r]. reflexivity.
  - destruct (if_truthy PyFloat.truthy (arg_hours a)) as [h|]; [|reflexivity].
    destruct (create_invoice E _ _ _ _) as [t' r]. reflexivity.
Qed.

End MoreMain.

(** X2. A run of the invoice builder ends in one of three ways.  It raises,
    and then nothing at all was printed or built; or it prints the usage
    message and returns; or it builds exactly one document, at the output
    path, and then prints "Invoice created: " and that path.  So no run
    leaves a document behind and then fails, and none builds two. *)
Theorem X2_main_ends_in_one_of_three_ways :
  forall (E : Invoice.env) (a : Invoice.args),
    (exists e, Invoice.main E a = ([], Raise e))
    \/ Invoice.main E a = ([Invoice.Print Invoice.usage_error], Ok tt)
    \/ (exists cfg doc,
          Spec.config_of E a = Ok cfg
          /\ Invoice.main E a
             = ([Invoice.Build (Invoice.output_path_of a (Invoice.invoice cfg)) doc;
                 Invoice.Print ("Invoice created: "
                                +:+ Invoice.output_path_of a (Invoice.invoice cfg))],
                Ok tt)).
Proof.
  intros E a. destruct (Spec.config_of E a) as [cfg|e] eqn:Hcfg.
  2:{ left. exists e. unfold Invoice.main. unfold Spec.config_of in Hcfg.
      rewrite Hcfg. reflexivity. }
  rewrite (main_with_config E a cfg Hcfg).
  destruct (Invoice.if_truthy str_truthy (Invoice.arg_csv a)) as [csv|].
  - destruct (Invoice.load_line_items_from_csv E csv) as [items|e]; cbn [lift bind].
    2:{ left. eauto. }
    destruct (create_invoice_cases E (Invoice.arg_date a) items
                (Invoice.output_path_of a (Invoice.invoice cfg)) cfg)
      as [[e ->]|[doc ->]]; [left; eauto|].
    right. right. exists cfg, doc. split; reflexivity.
  - destruct (Invoice.if_truthy PyFloat.truthy (Invoice.arg_hours a)) as [h|].
    + destruct (create_invoice_cases E (Invoice.arg_date a)
                  [Invoice.single_item a (Invoice.invoice cfg) h]
                  (Invoice.output_path_of a (Invoice.invoice cfg)) cfg)
        as [[e ->]|[doc ->]]; [left; eauto|].
      right. right. exists cfg, doc. split; reflexivity.
    + right. left. reflexivity.
Qed.

(** X3. The configuration is loaded before anything else is looked at, and
    the CSV file before the date.  If the configuration cannot be loaded the
    run raises that exception, whatever the options are -- also where the
    usage message would be due.  If it loads and the file of a non-empty
    [--csv] cannot be read, the run raises that exception.  Nothing is
    printed or built in either case. *)
Theorem X3_loading_failures_escape :
  forall (E : Invoice.env) (a : Invoice.args) (e : pyexn),
    (Spec.config_of E a = Raise e -> Invoice.main E a = ([], Raise e))
    /\ (forall cfg csv,
          Spec.config_of E a = Ok cfg ->
          Invoice.arg_csv a = Some csv -> csv <> "" ->
          Invoice.load_line_items_from_csv E csv = Raise e ->
          Invoice.main E a = ([], Raise e)).
Proof.
  intros E a e. split.
  - unfold Spec.config_of, Invoice.main. intros ->. reflexivity.
  - intros cfg csv Hcfg Hcsv Hne Hload. rewrite (main_with_config E a cfg Hcfg).
    rewrite Hcsv. destruct csv; [congruence|]. cbn [Invoice.if_truthy str_truthy].
    rewrite Hload. reflexivity.
Qed.

(** [--config missing.toml]: the FileNotFoundError escapes, although no source
    of line items is given either. *)
Lemma X3_witness :
  Invoice.main Demo.E More.no_config_args
  = ([], Raise (FileNotFoundError "missing.toml")).
Proof.
  apply (proj1 (X3_loading_failures_escape Demo.E More.no_config_args
                  (FileNotFoundError "missing.toml"))).
  reflexivity.
Defined.

Section MoreOptions.
Import Invoice.

Lemma if_truthy_idem {A} (t : A -> bool) (o : option A) :
  if_truthy t (if_truthy t o) = if_truthy t o.
Proof.
  destruct o as [x|]; [|reflexivity]. cbn. destruct (t x) eqn:H; cbn; [|reflexivity].
  now rewrite H.
Qed.

End MoreOptions.

(** X4. The options that take a text are tested for truthiness, so an empty
    text counts as the option not being there: a run with [--csv ""],
    [--config ""], [--description ""] or [--output ""] is the run without
    that option. *)
Theorem X4_empty_text_options_count_as_absent :
  forall (E : Invoice.env) (a : Invoice.args),
    Invoice.main E a = Invoice.main E (More.without_empty_options a).
Proof.
  intros E a. unfold Invoice.main, Invoice.output_path_of, Invoice.single_item,
    More.without_empty_options, More.drop_empty.
  cbn [Invoice.arg_config Invoice.arg_csv Invoice.arg_hours Invoice.arg_date
       Invoice.arg_rate Invoice.arg_description Invoice.arg_output].
  rewrite !if_truthy_idem. reflexivity.
Qed.

Section MoreDates.
Import Invoice.

Lemma digit_bounds (c : ascii) : is_digit c = true -> 0 <= digit_val c <= 9.
Proof.
  unfold is_digit, digit_val. intros H. apply andb_prop in H as [H1 H2].
  apply Nat.leb_le in H1, H2. lia.
Qed.

Lemma digit_in_bounds (lo hi : Z) (c : ascii) :
  digit_in lo hi c = true -> lo <= digit_val c <= hi.
Proof.
  unfold digit_in. intros H. apply andb_prop in H as [H Hhi].
  apply andb_prop in H as [_ Hlo]. apply Z.leb_le in Hlo, Hhi. lia.
Qed.

Lemma read_month_range (l rest : list ascii) (m : Z) :
  read_month l = Some (m, rest) -> 1 <= m <= 12.
Proof.
  unfold read_month. destruct l as [|a [|b l]]; try discriminate.
  destruct ((Ascii.eqb a "1" && digit_in 0 2 b) || (Ascii.eqb a "0" && digit_in 1 9 b))
    eqn:Htwo.
  - destruct l as [|c l]; [discriminate|].
    assert (Hm : 1 <= 10 * digit_val a + digit_val b <= 12).
    { apply orb_prop in Htwo as [H|H]; apply andb_prop in H as [Ha Hb];
        apply Ascii.eqb_eq in Ha; subst a; apply digit_in_bounds in Hb;
        change (digit_val "1") with 1; change (digit_val "0") with 0; lia. }
    intros H. destruct c as [[] [] [] [] [] [] [] []]; try discriminate H.
    inversion H; subst; exact Hm.
  - destruct (digit_in 1 9 a && Ascii.eqb b "-") eqn:Hone; [|discriminate].
    apply andb_prop in Hone as [Ha _]. apply digit_in_bounds in Ha.
    intros H. inversion H. subst. lia.
Qed.

Lemma read_day_range (l rest : list ascii) (d : Z) :
  read_day l = Some (d, rest) -> 1 <= d <= 31.
Proof.
  unfold read_day. destruct l as [|a [|b l]]; try discriminate.
  - destruct (digit_in 1 9 a) eqn:Ha; [|discriminate].
    apply digit_in_bounds in Ha. intros H. inversion H. subst. lia.
  - destruct ((Ascii.eqb a "3" && digit_in 0 1 b) || (digit_in 1 2 a && is_digit b)
              || (Ascii.eqb a "0" && digit_in 1 9 b)) eqn:Htwo.
    + intros H. inversion H. subst. clear H.
      apply orb_prop in Htwo as [Htwo|H].
      * apply orb_prop in Htwo as [H|H]; apply andb_prop in H as [Ha Hb].
        -- apply Ascii.eqb_eq in Ha. subst a. apply digit_in_bounds in Hb.
           change (digit_val "3") with 3. lia.
        -- apply digit_in_bounds in Ha. apply digit_bounds in Hb. lia.
      * apply andb_prop in H as [Ha Hb]. apply Ascii.eqb_eq in Ha. subst a.
        apply digit_in_bounds in Hb. change (digit_val "0") with 0. lia.
    + destruct (digit_in 1 9 a) eqn:Ha.
      * apply digit_in_bounds in Ha. intros H. inversion H. subst. lia.
      * destruct (Ascii.eqb a " " && digit_in 1 9 b) eqn:Hsp; [|discriminate].
        apply andb_prop in Hsp as [_ Hb]. apply digit_in_bounds in Hb.
        intros H. inversion H. subst. lia.
Qed.

Lemma strptime_calendar (s : string) (date : Z * Z * Z) :
  strptime s = Ok date -> More.calendar_date date.
Proof.
  unfold strptime.
  destruct (chars s) as [|y1 [|y2 [|y3 [|y4 [|dash rest]]]]]; try discriminate.
  assert (Hd : forall (A : Type) (x y : A),
             match dash with "-"%char => x | _ => y end
             = if Ascii.eqb dash "-" then x else y).
  { intros A x y. destruct dash as [[] [] [] [] [] [] [] []]; reflexivity. }
  rewrite Hd. destruct (Ascii.eqb dash "-"); [|discriminate].
  destruct (is_digit y1 && is_digit y2 && is_digit y3 && is_digit y4) eqn:Hy;
    [|discriminate].
  apply andb_prop in Hy as [Hy H4]. apply andb_prop in Hy as [Hy H3].
  apply andb_prop in Hy as [H1 H2]. apply digit_bounds in H1, H2, H3, H4.
  destruct (read_month rest) as [[m rest']|] eqn:Hm; [|discriminate].
  destruct (read_day rest') as [[d [|c l]]|] eqn:Hday; try discriminate.
  apply read_month_range in Hm. apply read_day_range in Hday.
  destruct (_ =? 0) eqn:Hz; [discriminate|]. apply Z.eqb_neq in Hz.
  destruct (days_in_month _ m <? d) eqn:Hdim; [discriminate|]. apply Z.ltb_ge in Hdim.
  intros H. inversion H. subst. unfold More.calendar_date. lia.
Qed.

Lemma strptime_raises_ValueError (s : string) (e : pyexn) :
  strptime s = Raise e -> exists msg, e = ValueError msg.
Proof.
  unfold strptime, no_match.
  destruct (chars s) as [|y1 [|y2 [|y3 [|y4 [|dash rest]]]]];
    try (intros H; inversion H; eauto; fail).
  destruct dash as [[] [] [] [] [] [] [] []]; try (intros H; inversion H; eauto; fail).
  destruct (is_digit y1 && is_digit y2 && is_digit y3 && is_digit y4);
    [|intros H; inversion H; eauto].
  destruct (read_month rest) as [[m rest']|]; [|intros H; inversion H; eauto].
  destruct (read_day rest') as [[d [|c l]]|]; try (intros H; inversion H; eauto; fail).
  destruct (_ =? 0); [intros H; inversion H; eauto|].
  destruct (_ <? d); [intros H; inversion H; eauto|discriminate].
Qed.

End MoreDates.

(** X5. [--date] is read with the format %Y-%m-%d.  A text that is accepted
    denotes a day of the calendar: a year from 1 to 9999, a month from 1 to
    12 and a day that the month has in that year (29 February only in leap
    years).  A text that is not accepted raises a ValueError. *)
Theorem X5_accepted_dates_are_calendar_days :
  forall s : string,
    match Invoice.strptime s with
    | Ok date => More.calendar_date date
    | Raise e => exists msg, e = ValueError msg
    end.
Proof.
  intros s. destruct (Invoice.strptime s) as [date|e] eqn:H.
  - exact (strptime_calendar s date H).
  - exact (strptime_raises_ValueError s e H).
Qed.

(** X6. The date is checked after the line items are there and before the
    table is computed or anything is built: when the configuration loads and
    there are line items (a CSV file that loads, or [--hours]), a [--date]
    that is not accepted makes the run raise its ValueError with nothing
    printed and nothing built -- whatever the line items are. *)
Theorem X6_bad_date_stops_the_run_before_the_build :
  forall (E : Invoice.env) (a : Invoice.args) (cfg : Invoice.config) (e : pyexn),
    Spec.config_of E a = Ok cfg ->
    More.has_line_items E a ->
    Invoice.strptime (Invoice.arg_date a) = Raise e ->
    Invoice.main E a = ([], Raise e) /\ exists msg, e = ValueError msg.
Proof.
  intros E a cfg e Hcfg Hitems Hdate.
  split; [|exact (strptime_raises_ValueError _ e Hdate)].
  rewrite (main_with_config E a cfg Hcfg).
  destruct Hitems as [(csv & items & -> & ->)|(-> & h & ->)];
    cbn [lift bind]; unfold Invoice.create_invoice; rewrite Hdate; reflexivity.
Qed.

(** [--hours 10 --date 2025-02-30]. *)
Lemma X6_witness :
  Invoice.main Demo.E More.bad_date_args
  = ([], Raise (ValueError "day is out of range for month")).
Proof.
  apply (X6_bad_date_stops_the_run_before_the_build Demo.E More.bad_date_args
           Demo.cfg _ eq_refl).
  - right. split; [reflexivity|]. eexists. reflexivity.
  - reflexivity.
Defined.

Section MoreDateText.
Import Invoice.

Lemma rsz_other (c : ascii) (r : string) :
  c <> " "%char -> replace_space_zero (String c r) = String c (replace_space_zero r).
Proof.
  intros Hc. destruct c as [[] [] [] [] [] [] [] []]; try reflexivity.
  now contradict Hc.
Qed.

Lemma rsz_space_other (c : ascii) (r : string) :
  c <> "0"%char ->
  replace_space_zero (String " " (String c r))
  = String " " (replace_space_zero (String c r)).
Proof.
  intros Hc. destruct c as [[] [] [] [] [] [] [] []]; try reflexivity.
  now contradict Hc.
Qed.

(** [replace(" 0", " ")] works on the two parts of a text separately when
    the first part does not end in a space. *)
Lemma rsz_app (n : nat) :
  forall p q : string,
    (String.length p <= n)%nat -> More.ends_in_space p = false ->
    replace_space_zero (p +:+ q) = replace_space_zero p +:+ replace_space_zero q.
Proof.
  induction n as [|n IH]; intros p q Hlen Hend.
  { destruct p; [reflexivity|cbn in Hlen; lia]. }
  destruct p as [|c p]; [reflexivity|].
  rewrite append_cons. cbn [String.length] in Hlen.
  destruct (Ascii.eqb c " ") eqn:Hc.
  - apply Ascii.eqb_eq in Hc. subst c.
    destruct p as [|c2 p]; [discriminate Hend|].
    rewrite append_cons. cbn [String.length] in Hlen.
    destruct (Ascii.eqb c2 "0") eqn:Hc2.
    + apply Ascii.eqb_eq in Hc2. subst c2.
      change (replace_space_zero (String " " (String "0" (p +:+ q))))
        with (String " " (replace_space_zero (p +:+ q))).
      change (replace_space_zero (String " " (String "0" p)))
        with (String " " (replace_space_zero p)).
      rewrite append_cons. f_equal. apply IH; [lia|].
      destruct p; [reflexivity|exact Hend].
    + apply Ascii.eqb_neq in Hc2. rewrite !rsz_space_other by exact Hc2.
      rewrite append_cons. f_equal. rewrite <- append_cons. apply IH.
      * cbn [String.length]. lia.
      * exact Hend.
  - apply Ascii.eqb_neq in Hc. rewrite !rsz_other by exact Hc.
    rewrite append_cons. f_equal. apply IH; [lia|].
    destruct p; [reflexivity|exact Hend].
Qed.

Lemma year_text (y : Z) :
  1 <= y <= 9999 ->
  replace_space_zero (" " +:+ digits_of_Z y) = " " +:+ digits_of_Z y.
Proof.
  intros Hy.
  assert (Hall : forallb (fun n =>
                   String.eqb (replace_space_zero (" " +:+ digits_of_Z (Z.of_nat n)))
                     (" " +:+ digits_of_Z (Z.of_nat n))) (seq 1 (Z.to_nat 9999)) = true)
    by (vm_compute; reflexivity).
  rewrite forallb_forall in Hall. specialize (Hall (Z.to_nat y)).
  rewrite Z2Nat.id in Hall by lia. apply String.eqb_eq. apply Hall.
  apply in_seq. lia.
Qed.

Lemma month_day_text (m d : Z) :
  1 <= m <= 12 -> 1 <= d <= 31 ->
  replace_space_zero (month_name m +:+ " " +:+ two_digits d +:+ ",")
  = month_name m +:+ " " +:+ digits_of_Z d +:+ ","
  /\ More.ends_in_space (month_name m +:+ " " +:+ two_digits d +:+ ",") = false.
Proof.
  intros Hm Hd.
  assert (Hall : forallb (fun i => forallb (fun j =>
             let m := Z.of_nat i in
             let d := Z.of_nat j in
             String.eqb (replace_space_zero (month_name m +:+ " " +:+ two_digits d +:+ ","))
               (month_name m +:+ " " +:+ digits_of_Z d +:+ ",")
             && negb (More.ends_in_space (month_name m +:+ " " +:+ two_digits d +:+ ",")))
           (seq 1 31)) (seq 1 12) = true) by (vm_compute; reflexivity).
  rewrite forallb_forall in Hall.
  assert (Hinm : In (Z.to_nat m) (seq 1 12)) by (apply in_seq; lia).
  apply Hall in Hinm. rewrite forallb_forall in Hinm.
  assert (Hin : In (Z.to_nat d) (seq 1 31)) by (apply in_seq; lia).
  apply Hinm in Hin. cbv zeta in Hin. rewrite !Z2Nat.id in Hin by lia.
  apply andb_prop in Hin as [H1 H2].
  apply String.eqb_eq in H1. apply negb_true_iff in H2. auto.
Qed.

(** The date as it is shown, for a day of the calendar. *)
Lemma formatted_date_text (date : Z * Z * Z) :
  More.calendar_date date ->
  replace_space_zero (strftime_long date) = More.long_date date.
Proof.
  destruct date as [[y m] d]. intros (Hy & Hm & Hd).
  assert (Hd31 : 1 <= d <= 31).
  { split; [lia|]. unfold days_in_month in Hd.
    repeat match type of Hd with context [if ?b then _ else _] => destruct b end; lia. }
  destruct (month_day_text m d Hm Hd31) as [Hhead Hend].
  unfold strftime_long, More.long_date.
  replace (month_name m +:+ " " +:+ two_digits d +:+ ", " +:+ digits_of_Z y)
    with ((month_name m +:+ " " +:+ two_digits d +:+ ",") +:+ " " +:+ digits_of_Z y).
  2:{ rewrite <- !append_assoc. reflexivity. }
  rewrite (rsz_app _ _ _ (Nat.le_refl _) Hend), Hhead, (year_text y Hy).
  rewrite <- !append_assoc. reflexivity.
Qed.

End MoreDateText.

(** X7. However the date was typed, the document shows it as the month's
    name, the day without a leading zero, a comma and the year, and the
    invoice number is the number prefix followed by the date written back
    with a two-digit month and a two-digit day. *)
Theorem X7_date_and_invoice_number_as_shown :
  forall (E : Invoice.env) (date_str : string) (items : list Invoice.line_item)
         (path : string) (cfg : Invoice.config) (p : string) (doc : Invoice.document)
         (y m d : Z),
    Invoice.strptime date_str = Ok (y, m, d) ->
    In (Invoice.Build p doc)
       (events (Invoice.create_invoice E date_str items path cfg)) ->
    Invoice.doc_meta doc
    = "<b>Date:</b> " +:+ Invoice.month_name m +:+ " " +:+ digits_of_Z d +:+ ", "
      +:+ digits_of_Z y +:+ "<br/><b>Invoice #:</b> "
      +:+ Invoice.number_prefix (Invoice.invoice cfg)
      +:+ digits_of_Z y +:+ "-" +:+ Invoice.two_digits m +:+ "-" +:+ Invoice.two_digits d.
Proof.
  intros E date_str items path cfg p doc y m d Hdate.
  pose proof (formatted_date_text (y, m, d) (strptime_calendar _ _ Hdate)) as Hlong.
  unfold Invoice.create_invoice. rewrite Hdate. cbn [lift bind]. rewrite Hlong.
  destruct (Invoice.build_table items) as [tbl|e]; cbn [lift bind]; [|intros []].
  destruct (Invoice.build_error E path) as [e|]; [intros []|].
  unfold emit, bind, events. cbn [fst app In].
  intros [H|[H|[]]]; [|discriminate H]. inversion H. subst.
  cbn [Invoice.doc_meta]. unfold More.long_date, Invoice.strftime_iso.
  rewrite <- !append_assoc. reflexivity.
Qed.

(** [--date 2025-1-5]: "January 5, 2025" and "INV-2025-01-05". *)
Lemma X7_witness :
  exists p doc,
    In (Invoice.Build p doc)
       (events (Invoice.create_invoice Demo.E "2025-1-5"
                  [Demo.item Demo.f10 Demo.f100] "out.pdf" Demo.cfg))
    /\ Invoice.doc_meta doc
       = "<b>Date:</b> January 5, 2025<br/><b>Invoice #:</b> INV-2025-01-05".
Proof.
  destruct (events (Invoice.create_invoice Demo.E "2025-1-5"
                      [Demo.item Demo.f10 Demo.f100] "out.pdf" Demo.cfg))
    as [|[line|p doc] t] eqn:Hev;
    [vm_compute in Hev; discriminate Hev|vm_compute in Hev; discriminate Hev|].
  exists p, doc. split; [left; reflexivity|].
  apply (X7_date_and_invoice_number_as_shown Demo.E "2025-1-5"
           [Demo.item Demo.f10 Demo.f100] "out.pdf" Demo.cfg p doc 2025 1 5 eq_refl).
  rewrite Hev. left. reflexivity.
Defined.

(* ===================================================================== *)
(** * Further properties of the secret publisher *)
(* ===================================================================== *)

Section MorePublisher.
Import Publisher.
Variable E : env.
Variables (config_path vault title : string) (account : option string).

Lemma store_config_without_file :
  path_exists E config_path = false ->
  store_config E config_path vault title account
  = ([PrintErr ("Error: Config file not found: " +:+ config_path)],
     Raise (SystemExit 1)).
Proof. intros H. unfold store_config. rewrite H. reflexivity. Qed.

Lemma store_config_unreadable (e : pyexn) :
  path_exists E config_path = true ->
  read_text E config_path = Raise e ->
  store_config E config_path vault title account = ([], Raise e).
Proof. intros Hex Hrd. unfold store_config. rewrite Hex, Hrd. reflexivity. Qed.


End MorePublisher.

(** X8. Without a config file that can be read, no command is called.  If the
    file does not exist the run prints "Error: Config file not found: " and
    the path on stderr and exits with status 1.  If it exists but reading it
    raises, that exception escapes as it is: the read stands outside the
    [try], so even a FileNotFoundError from it is not answered with the hint
    to install [op]. *)
Theorem X8_no_command_without_a_readable_config :
  forall (E : Publisher.env) (config_path vault title : string)
         (account : option string),
    (Publisher.path_exists E config_path = false ->
     Publisher.store_config E config_path vault title account
     = ([Publisher.PrintErr ("Error: Config file not found: " +:+ config_path)],
        Raise (SystemExit 1)))
    /\ (forall e,
          Publisher.path_exists E config_path = true ->
          Publisher.read_text E config_path = Raise e ->
          Publisher.store_config E config_path vault title account = ([], Raise e))
    /\ (Publisher.path_exists E config_path = false
        \/ (exists e, Publisher.read_text E config_path = Raise e) ->
        Spec.commands
          (events (Publisher.store_config E config_path vault title account)) = []).
Proof.
  intros E config_path vault title account. split; [|split].
  - apply store_config_without_file.
  - intros e. apply store_config_unreadable.
  - intros H. destruct (Publisher.path_exists E config_path) eqn:Hex.
    + destruct H as [H|[e Hrd]]; [discriminate H|].
      rewrite (store_config_unreadable E _ _ _ _ e Hex Hrd). reflexivity.
    + rewrite (store_config_without_file E _ _ _ _ Hex). reflexivity.
Qed.

(** A config file that is not there; and one that is listed but cannot be
    opened any more. *)
Lemma X8_witness :
  Publisher.store_config (Demo.publisher (Some 0)) "other.toml" "Private"
    "invoice-config" None
  = ([Publisher.PrintErr "Error: Config file not found: other.toml"],
     Raise (SystemExit 1))
  /\ Publisher.store_config More.vanishing_file "config.toml" "Private"
       "invoice-config" None
     = ([], Raise (FileNotFoundError "config.toml")).
Proof.
  split.
  - apply (proj1 (X8_no_command_without_a_readable_config (Demo.publisher (Some 0))
                    "other.toml" "Private" "invoice-config" None)).
    reflexivity.
  - apply (proj1 (proj2 (X8_no_command_without_a_readable_config More.vanishing_file
                           "config.toml" "Private" "invoice-config" None)));
      reflexivity.
Defined.



(** X10. The account is tested for truthiness: an empty [--account] is no
    account.  No command gets an [--account] argument, and the line that
    [main] prints last has no [--op-account]: the run is the run without the
    option. *)
Theorem X10_empty_account_counts_as_absent :
  forall (E : Publisher.env) (a : Publisher.args),
    Publisher.main E (More.with_account a (Some ""))
    = Publisher.main E (More.with_account a None)
    /\ Publisher.store_config E (Publisher.arg_config a) (Publisher.arg_vault a)
         (Publisher.arg_title a) (Some "")
       = Publisher.store_config E (Publisher.arg_config a) (Publisher.arg_vault a)
           (Publisher.arg_title a) None
    /\ Publisher.item_exists E (Publisher.arg_vault a) (Publisher.arg_title a) (Some "")
       = Publisher.item_exists E (Publisher.arg_vault a) (Publisher.arg_title a) None.
Proof. intros E a. repeat split. Qed.

Section MoreStrip.




End MoreStrip.



(* ===================================================================== *)
(** * Counting digits *)
(* ===================================================================== *)

Section Digits.

Lemma string_of_uint_length (d : Decimal.uint) :
  String.length (NilEmpty.string_of_uint d) = Decimal.nb_digits d.
Proof. induction d; cbn; congruence. Qed.

(** Reading digits from the left, starting from [acc]. *)
Lemma of_uint_acc_bounds (d : Decimal.uint) :
  forall acc : positive,
    Z.pos acc * 10 ^ Z.of_nat (Decimal.nb_digits d)
    <= Z.pos (Pos.of_uint_acc d acc)
    < (Z.pos acc + 1) * 10 ^ Z.of_nat (Decimal.nb_digits d).
Proof.
  induction d; intros acc; cbn [Decimal.nb_digits Pos.of_uint_acc];
    [cbn; lia|..];
    rewrite Nat2Z.inj_succ, Z.pow_succ_r by lia;
    match goal with
    | |- context [Pos.of_uint_acc d ?a] => specialize (IHd a)
    end;
    assert (0 < 10 ^ Z.of_nat (Decimal.nb_digits d)) by (apply Z.pow_pos_nonneg; lia);
    rewrite ?Pos2Z.inj_add, ?Pos2Z.inj_mul in IHd; nia.
Qed.

Lemma of_uint_upper (d : Decimal.uint) :
  Z.of_N (Pos.of_uint d) < 10 ^ Z.of_nat (Decimal.nb_digits d).
Proof.
  induction d; cbn [Decimal.nb_digits Pos.of_uint];
    [cbn; lia|..];
    rewrite Nat2Z.inj_succ, Z.pow_succ_r by lia;
    assert (0 < 10 ^ Z.of_nat (Decimal.nb_digits d)) by (apply Z.pow_pos_nonneg; lia);
    [lia|..];
    match goal with
    | |- context [Pos.of_uint_acc d ?a] => pose proof (of_uint_acc_bounds d a)
    end;
    cbn [Z.of_N]; lia.
Qed.

Lemma nzhead_no_D0 (d : Decimal.uint) :
  match Decimal.nzhead d with Decimal.D0 _ => False | _ => True end.
Proof. induction d; cbn; auto. Qed.

Lemma to_uint_leading (p : positive) :
  match Pos.to_uint p with
  | Decimal.Nil | Decimal.D0 _ => False
  | _ => True
  end.
Proof.
  pose proof (DecimalPos.Unsigned.to_of (Pos.to_uint p)) as H.
  rewrite DecimalPos.Unsigned.of_to in H. cbn [N.to_uint] in H.
  pose proof (DecimalPos.Unsigned.to_uint_nonzero p) as Hz.
  pose proof (nzhead_no_D0 (Pos.to_uint p)) as Hn.
  unfold Decimal.unorm in H.
  destruct (Decimal.nzhead (Pos.to_uint p)) eqn:Hh; rewrite H; try exact I;
    try contradiction.
Qed.

Lemma of_uint_lower (d : Decimal.uint) :
  match d with Decimal.Nil | Decimal.D0 _ => False | _ => True end ->
  10 ^ (Z.of_nat (Decimal.nb_digits d) - 1) <= Z.of_N (Pos.of_uint d).
Proof.
  destruct d; try contradiction; intros _;
    cbn [Decimal.nb_digits Pos.of_uint Z.of_N];
    rewrite Nat2Z.inj_succ;
    replace (Z.succ (Z.of_nat (Decimal.nb_digits d)) - 1)
      with (Z.of_nat (Decimal.nb_digits d)) by lia;
    match goal with
    | |- context [Pos.of_uint_acc d ?a] => pose proof (of_uint_acc_bounds d a)
    end;
    assert (0 < 10 ^ Z.of_nat (Decimal.nb_digits d)) by (apply Z.pow_pos_nonneg; lia);
    nia.
Qed.

(** The coefficient of a decimal has as many digits as its size says. *)
Lemma ndigits_bounds (c : Z) :
  0 < c ->
  10 ^ (PyDecimal.ndigits c - 1) <= c < 10 ^ PyDecimal.ndigits c.
Proof.
  intros Hc. unfold PyDecimal.ndigits, digits_of_Z, digits_of_N.
  destruct c as [|p|p]; try lia. cbn [Z.to_N N.to_uint].
  pose proof (to_uint_leading p) as Hlead.
  pose proof (DecimalPos.Unsigned.of_to p) as Hval.
  unfold NilZero.string_of_uint.
  destruct (Pos.to_uint p) eqn:Hd; try contradiction;
    rewrite string_of_uint_length;
    match goal with
    | |- context [Decimal.nb_digits ?d] =>
        pose proof (of_uint_upper d) as Hup;
        pose proof (of_uint_lower d I) as Hlo
    end;
    rewrite Hval in Hup, Hlo; cbn [Z.of_N] in Hup, Hlo; lia.
Qed.

Lemma ndigits_positive (c : Z) : 1 <= PyDecimal.ndigits c.
Proof.
  unfold PyDecimal.ndigits, digits_of_Z.
  pose proof (digits_of_N_nonempty (Z.to_N c)) as Hne.
  destruct (digits_of_N (Z.to_N c)); [now contradict Hne|].
  cbn [String.length]. lia.
Qed.

(** At most [k] digits means below 10^k. *)
Lemma ndigits_le (c k : Z) :
  0 < c -> 0 <= k -> (PyDecimal.ndigits c <= k <-> c < 10 ^ k).
Proof.
  intros Hc Hk. pose proof (ndigits_bounds c Hc) as [Hlo Hup].
  pose proof (ndigits_positive c) as Hpos. split; intros H.
  - eapply Z.lt_le_trans; [exact Hup|]. apply Z.pow_le_mono_r; lia.
  - destruct (Z_le_gt_dec (PyDecimal.ndigits c) k) as [|Hgt]; [assumption|].
    exfalso. assert (10 ^ k <= 10 ^ (PyDecimal.ndigits c - 1))
      by (apply Z.pow_le_mono_r; lia). lia.
Qed.

End Digits.

(* ===================================================================== *)
(** * Further properties of the total *)
(* ===================================================================== *)

Section MoreContext.
Import PyDecimal.

Lemma ndigits_zero : ndigits 0 = 1.
Proof. reflexivity. Qed.

(** Dropping digits of a coefficient of [nd] digits leaves at most as many
    as are kept, or the next power of ten. *)
Lemma round_digits_bound (c drop kept : Z) :
  0 <= c -> 0 < drop -> 0 <= kept -> c < 10 ^ (kept + drop) ->
  0 <= round_digits c drop <= 10 ^ kept.
Proof.
  intros Hc Hdrop Hkept Hlt. unfold round_digits. cbv zeta.
  assert (Hp : 0 < 10 ^ drop) by (apply Z.pow_pos_nonneg; lia).
  assert (Hq : 0 <= c / 10 ^ drop < 10 ^ kept).
  { split; [apply Z.div_pos; lia|]. apply Z.div_lt_upper_bound; [lia|].
    rewrite <- Z.pow_add_r by lia. now rewrite Z.add_comm. }
  set (q := c / 10 ^ drop) in *. destruct (_ || _); lia.
Qed.

(** What [_fix] returns for a finite decimal fits the context. *)
Lemma fix_fits (neg : bool) (c e : Z) (d' : decimal) :
  0 <= c -> _fix (Dec neg c e) = Ok d' -> within_context d' = true.
Proof.
  intros Hc. unfold _fix.
  destruct (c =? 0) eqn:Hz.
  { intros H. inversion H. subst d'. cbn [within_context]. rewrite ndigits_zero.
    unfold Etiny, Emax, Emin, prec.
    apply andb_true_intro. split; [apply andb_true_intro; split|];
      apply Z.leb_le; lia. }
  apply Z.eqb_neq in Hz. assert (Hpos : 0 < c) by lia.
  pose proof (ndigits_bounds c Hpos) as [Hlo Hup].
  pose proof (ndigits_positive c) as Hnd.
  set (nd := ndigits c) in *.
  unfold Etop, Etiny, Emax, Emin, prec in *.
  destruct (999999 - 28 + 1 <? nd + e - 28) eqn:Hover; [discriminate|].
  apply Z.ltb_ge in Hover.
  set (exp_min := if nd + e - 28 <? -999999 - 28 + 1 then -999999 - 28 + 1
                  else nd + e - 28).
  assert (Hem : nd + e - 28 <= exp_min /\ -999999 - 28 + 1 <= exp_min
                /\ exp_min <= 999999 - 28 + 1).
  { subst exp_min. destruct (_ <? _) eqn:Hs;
      [apply Z.ltb_lt in Hs|apply Z.ltb_ge in Hs]; lia. }
  destruct (e <? exp_min) eqn:Hround.
  2:{ apply Z.ltb_ge in Hround. intros H. inversion H. subst d'.
      cbn [within_context]. fold nd. unfold Etiny, Emax, Emin, prec.
      apply andb_true_intro. split; [apply andb_true_intro; split|];
        apply Z.leb_le; lia. }
  apply Z.ltb_lt in Hround.
  set (digits := nd + e - exp_min).
  assert (Hcoeff : 0 <= (let '(c0, e0) := if digits <? 0 then (1, exp_min - 1) else (c, e)
                         in round_digits c0 (exp_min - e0)) <= 10 ^ 28).
  { destruct (digits <? 0) eqn:Hneg.
    - replace (exp_min - (exp_min - 1)) with 1 by lia.
      change (round_digits 1 1) with 0. split; [lia|apply Z.pow_nonneg; lia].
    - apply Z.ltb_ge in Hneg.
      assert (H := round_digits_bound c (exp_min - e) digits (Z.lt_le_incl _ _ Hpos)).
      replace (digits + (exp_min - e)) with nd in H by (subst digits; lia).
      specialize (H ltac:(lia) Hneg Hup).
      assert (10 ^ digits <= 10 ^ 28) by (apply Z.pow_le_mono_r; subst digits; lia).
      lia. }
  destruct (if digits <? 0 then (1, exp_min - 1) else (c, e)) as [c0 e0].
  set (coeff := round_digits c0 (exp_min - e0)) in *.
  assert (Hfinal : forall k x, 0 <= k -> ndigits k <= 28 ->
                     -999999 - 28 + 1 <= x <= 999999 - 28 + 1 ->
                     within_context (Dec neg k x) = true).
  { intros k x Hk Hkd Hx. cbn [within_context]. unfold Etiny, Emax, Emin, prec.
    apply andb_true_intro. split; [apply andb_true_intro; split|];
      apply Z.leb_le; lia. }
  destruct (28 <? ndigits coeff) eqn:Hlong.
  - apply Z.ltb_lt in Hlong.
    assert (Hc28 : coeff = 10 ^ 28).
    { destruct (Z.eq_dec coeff 0) as [->|Hnz]; [rewrite ndigits_zero in Hlong; lia|].
      assert (Hcp : 0 < coeff) by lia.
      pose proof (proj2 (ndigits_le coeff 28 Hcp ltac:(lia))) as Hle.
      destruct (Z_lt_le_dec coeff (10 ^ 28)) as [Hlt|Hge]; [specialize (Hle Hlt); lia|lia]. }
    destruct (999999 - 28 + 1 <? exp_min + 1) eqn:Hover2; [discriminate|].
    apply Z.ltb_ge in Hover2. intros H. inversion H. subst d'.
    apply Hfinal; [rewrite Hc28; vm_compute; discriminate| |lia].
    rewrite Hc28. vm_compute. discriminate.
  - apply Z.ltb_ge in Hlong.
    destruct (999999 - 28 + 1 <? exp_min) eqn:Hover2; [discriminate|].
    intros H. inversion H. subst d'. apply Hfinal; lia.
Qed.

Lemma add_exact_nonneg (s1 : bool) (c1 e1 : Z) (s2 : bool) (c2 e2 : Z) :
  exists s c e, add_exact s1 c1 e1 s2 c2 e2 = Dec s c e /\ 0 <= c.
Proof.
  unfold add_exact. destruct (_ =? 0); eexists _, _, _; split; try reflexivity; lia.
Qed.

(** What [+] returns fits the context, if it is finite. *)
Lemma add_fits (a b d : decimal) : add a b = Ok d -> More.fits_context d.
Proof.
  destruct a as [s1 c1 e1|s1|], b as [s2 c2 e2|s2|]; cbn [add];
    try (intros H; inversion H; exact I; fail).
  - destruct (add_exact_nonneg s1 c1 e1 s2 c2 e2) as (s & c & e & -> & Hc).
    intros H. pose proof (fix_fits s c e d Hc H) as Hw.
    destruct d; [exact Hw|exact I|exact I].
  - destruct (Bool.eqb s1 s2); intros H; inversion H; exact I.
Qed.

Lemma add_items_fits (line_items : list Invoice.line_item) :
  forall (total : decimal) (tbl : Invoice.table) (total' : decimal) (tbl' : Invoice.table),
    More.fits_context total ->
    Invoice.add_items total tbl line_items = Ok (total', tbl') ->
    More.fits_context total'.
Proof.
  induction line_items as [|item rest IH]; intros total tbl total' tbl' Hfit H.
  - cbn in H. inversion H. subst. exact Hfit.
  - cbn [Invoice.add_items] in H.
    destruct (Invoice.amount_of item) as [amount|]; cbn [rbind] in H; [|discriminate].
    destruct (add total amount) as [t1|] eqn:Hadd; cbn [rbind] in H; [|discriminate].
    destruct (Invoice.item_row item amount) as [row|]; cbn [rbind] in H; [|discriminate].
    exact (IH _ _ _ _ (add_fits _ _ _ Hadd) H).
Qed.

End MoreContext.

(** X12. Whatever the line items are, a total that the loop returns is held
    by the decimal context: if it is finite it has at most 28 significant
    digits and its exponent is in the context's range, so it is a value that
    the context would leave as it is. *)
Theorem X12_total_fits_the_context :
  forall (line_items : list Invoice.line_item) (total : PyDecimal.decimal),
    Invoice.invoice_total line_items = Ok total ->
    More.fits_context total
    /\ PyDecimal._fix total = Ok total.
Proof.
  intros line_items total. unfold Invoice.invoice_total.
  destruct (Invoice.add_items _ _ line_items) as [[t tbl]|] eqn:Hloop;
    cbn [rbind]; [|discriminate].
  intros H. inversion H. subst t.
  assert (Hfit : More.fits_context total).
  { apply (add_items_fits line_items _ _ _ _ (eq_refl : More.fits_context (PyDecimal.Dec false 0 0)) Hloop). }
  split; [exact Hfit|].
  destruct total; [apply fix_within_context; exact Hfit|reflexivity|reflexivity].
Qed.

(** The rounded product of the long factors still has 28 digits. *)
Lemma X12_witness :
  PyDecimal.within_context
    (PyDecimal.Dec false 1524157875323866912056239902 (-27)) = true.
Proof.
  exact (proj1 (X12_total_fits_the_context [Demo.item Demo.f_long Demo.f_long]
                  (PyDecimal.Dec false 1524157875323866912056239902 (-27))
                  ltac:(vm_compute; reflexivity))).
Defined.

Section MoreRendering.
Import PyFloat.

(** Rounding to the nearest integer errs by at most one half. *)
Lemma round_half_even_near (n d : Z) :
  0 < d -> 2 * Z.abs (d * round_half_even n d - n) <= d.
Proof.
  intros Hd. unfold round_half_even.
  pose proof (Z.div_mod n d ltac:(lia)) as Hdm.
  pose proof (Z.mod_pos_bound n d Hd) as Hr.
  set (q := n / d) in *. set (r := n mod d) in *.
  destruct (2 * r <? d) eqn:H1; [apply Z.ltb_lt in H1; lia|].
  apply Z.ltb_ge in H1.
  destruct (d <? 2 * r) eqn:H2; [apply Z.ltb_lt in H2; lia|].
  apply Z.ltb_ge in H2. destruct (Z.even q); lia.
Qed.

(** An integer nearer than one half is the one the rounding gives. *)
Lemma round_half_even_unique (n d k : Z) :
  0 < d -> 2 * Z.abs (d * k - n) < d -> round_half_even n d = k.
Proof.
  intros Hd Hk. unfold round_half_even.
  pose proof (Z.div_mod n d ltac:(lia)) as Hdm.
  pose proof (Z.mod_pos_bound n d Hd) as Hr.
  set (q := n / d) in *. set (r := n mod d) in *.
  assert (Hcases : k = q \/ k = q + 1) by nia.
  destruct Hcases as [->| ->].
  - replace (2 * r <? d) with true by (symmetry; apply Z.ltb_lt; lia). reflexivity.
  - replace (2 * r <? d) with false by (symmetry; apply Z.ltb_ge; lia).
    replace (d <? 2 * r) with true by (symmetry; apply Z.ltb_lt; lia). reflexivity.
Qed.

(** For a ratio below 2^52 / 100 the binary exponent is at most -7. *)
Lemma cents_exponent (n d K : Z) :
  0 < n -> 0 < d -> 100 * n = K * d -> K < 2 ^ 52 ->
  let l := Z.log2 n - Z.log2 d in
  (if pow2_le l n d then l else l - 1) <= 45.
Proof.
  intros Hn Hd Hcents HK l.
  pose proof (Z.log2_spec n Hn) as [Hn1 Hn2].
  pose proof (Z.log2_spec d Hd) as [Hd1 Hd2].
  pose proof (Z.log2_nonneg n) as Hln. pose proof (Z.log2_nonneg d) as Hld.
  destruct (Z_le_gt_dec (if pow2_le l n d then l else l - 1) 45) as [|Hgt]; [assumption|].
  exfalso. unfold pow2_le in Hgt.
  destruct (0 <=? l) eqn:Hl0.
  - destruct (d * 2 ^ l <=? n) eqn:Hle.
    + apply Z.leb_le in Hle.
      assert (2 ^ 46 <= 2 ^ l) by (apply Z.pow_le_mono_r; lia).
      change (2 ^ 46) with 70368744177664 in *. change (2 ^ 52) with 4503599627370496 in *.
      nia.
    + assert (Hl : 47 <= l) by lia.
      assert (Hsplit : Z.log2 n = (Z.log2 d + 1) + (l - 1)) by (subst l; lia).
      assert (2 ^ Z.log2 n = 2 ^ (Z.log2 d + 1) * 2 ^ (l - 1))
        by (rewrite Hsplit at 1; apply Z.pow_add_r; lia).
      assert (2 ^ 46 <= 2 ^ (l - 1)) by (apply Z.pow_le_mono_r; lia).
      change (Z.succ (Z.log2 d)) with (Z.log2 d + 1) in Hd2.
      change (2 ^ 46) with 70368744177664 in *. change (2 ^ 52) with 4503599627370496 in *.
      nia.
  - apply Z.leb_gt in Hl0. destruct (d <=? n * 2 ^ (- l)); lia.
Qed.

(** The float nearest to a whole number of cents below 2^52 prints as that
    number of cents. *)
Lemma of_ratio_cents (neg : bool) (n d K : Z) :
  0 <= n -> 0 < d -> 100 * n = K * d -> K < 2 ^ 52 ->
  exists m e, of_ratio neg n d = Finite neg m e /\ scaled_round 2 m e = K.
Proof.
  intros Hn Hd Hcents HK. unfold of_ratio.
  destruct (n <=? 0) eqn:Hz.
  { apply Z.leb_le in Hz. assert (n = 0) by lia. subst n.
    assert (K = 0) by nia. subst K. eexists _, _. split; [reflexivity|].
    vm_compute. reflexivity. }
  apply Z.leb_gt in Hz.
  pose proof (cents_exponent n d K Hz Hd Hcents HK) as Hfl. cbv zeta in Hfl |- *.
  set (fl := if pow2_le (Z.log2 n - Z.log2 d) n d then Z.log2 n - Z.log2 d
             else Z.log2 n - Z.log2 d - 1) in *.
  set (e := Z.max (fl - 52) (-1074)).
  assert (He : -1074 <= e <= -7) by (subst e; lia).
  replace (0 <=? e) with false by (symmetry; apply Z.leb_gt; lia).
  set (m0 := round_half_even (n * 2 ^ (- e)) d).
  pose proof (round_half_even_near (n * 2 ^ (- e)) d Hd) as Hnear. fold m0 in Hnear.
  assert (Hp : 128 <= 2 ^ (- e)).
  { change 128 with (2 ^ 7). apply Z.pow_le_mono_r; lia. }
  assert (Hhalf : 2 ^ (- e) = 2 * 2 ^ (- (e + 1))).
  { replace (- e) with (Z.succ (- (e + 1))) by lia. apply Z.pow_succ_r. lia. }
  (* in cents: 100 * m0 is within 50 of K * 2^-e *)
  assert (Hm0 : 2 * Z.abs (100 * m0 - K * 2 ^ (- e)) <= 100).
  { assert (Heq : d * (100 * m0 - K * 2 ^ (- e)) = 100 * (d * m0 - n * 2 ^ (- e))) by nia.
    assert (Habs : d * Z.abs (100 * m0 - K * 2 ^ (- e))
                   = 100 * Z.abs (d * m0 - n * 2 ^ (- e))).
    { rewrite <- (Z.abs_eq d) at 1 by lia. rewrite <- Z.abs_mul, Heq, Z.abs_mul.
      reflexivity. }
    nia. }
  destruct (m0 =? 2 ^ 53) eqn:Hbump.
  - apply Z.eqb_eq in Hbump.
    replace (971 <? e + 1) with false by (symmetry; apply Z.ltb_ge; lia).
    exists (2 ^ 52), (e + 1). split; [reflexivity|].
    unfold scaled_round. replace (0 <=? e + 1) with false by (symmetry; apply Z.leb_gt; lia).
    apply round_half_even_unique; [apply Z.pow_pos_nonneg; lia|].
    rewrite Hbump in Hm0. change (Z.of_nat 2) with 2.
    change (2 ^ 53) with (2 * 2 ^ 52) in Hm0. change (10 ^ 2) with 100.
    set (P := 2 ^ (- (e + 1))) in *. lia.
  - replace (971 <? e) with false by (symmetry; apply Z.ltb_ge; lia).
    exists m0, e. split; [reflexivity|].
    unfold scaled_round. replace (0 <=? e) with false by (symmetry; apply Z.leb_gt; lia).
    apply round_half_even_unique; [apply Z.pow_pos_nonneg; lia|].
    change (Z.of_nat 2) with 2. change (10 ^ 2) with 100. lia.
Qed.

End MoreRendering.

Section MoreCents.

(** The text of a decimal that is a whole number of cents below 2^52. *)
Lemma whole_cents_text (neg : bool) (c e K : Z) :
  0 <= c -> 0 <= K < 2 ^ 52 -> More.whole_cents c e K ->
  Invoice.format_currency (PyDecimal.to_float (PyDecimal.Dec neg c e))
  = More.cents_text neg K.
Proof.
  intros Hc [HK0 HK] Hcents.
  assert (Hratio : exists m e2,
             PyDecimal.to_float (PyDecimal.Dec neg c e) = PyFloat.Finite neg m e2
             /\ PyFloat.scaled_round 2 m e2 = K).
  { cbn [PyDecimal.to_float]. unfold PyFloat.of_decimal, More.whole_cents in *.
    destruct (0 <=? e) eqn:He.
    - apply Z.leb_le in He.
      replace (0 <=? e + 2) with true in Hcents by (symmetry; apply Z.leb_le; lia).
      apply of_ratio_cents with (K := K);
        [apply Z.mul_nonneg_nonneg; [lia|apply Z.pow_nonneg; lia]|lia| |lia].
      rewrite Hcents, Z.pow_add_r by lia. change (10 ^ 2) with 100. ring.
    - apply Z.leb_gt in He.
      assert (Hp : 0 < 10 ^ (- e)) by (apply Z.pow_pos_nonneg; lia).
      apply of_ratio_cents with (K := K); try lia.
      destruct (0 <=? e + 2) eqn:He2.
      + apply Z.leb_le in He2. rewrite Hcents.
        assert (e = -1 \/ e = -2) as [-> | ->] by lia.
        * change (10 ^ (-1 + 2)) with 10. change (10 ^ (- -1)) with 10. ring.
        * change (10 ^ (-2 + 2)) with 1. change (10 ^ (- -2)) with 100. ring.
      + apply Z.leb_gt in He2. rewrite Hcents.
        replace (- e) with (- (e + 2) + 2) by lia.
        rewrite Z.pow_add_r by lia. change (10 ^ 2) with 100. ring. }
  destruct Hratio as (m & e2 & -> & Hk).
  unfold Invoice.format_currency, More.cents_text, PyFloat.format_f.
  rewrite Hk. change (10 ^ Z.of_nat 2) with 100.
  rewrite <- ?append_assoc. reflexivity.
Qed.

End MoreCents.

(** X13. Going through a float does not change a total that is a whole
    number of cents, as long as it is below 2^52 cents (some 45 million
    million dollars): the text in the total row -- and in an amount cell --
    is then exactly that number of cents, the dollars grouped by thousands
    and the cents as two digits. *)
Theorem X13_whole_cents_are_printed_exactly :
  forall (neg : bool) (c e K : Z),
    0 <= c -> 0 <= K < 2 ^ 52 -> More.whole_cents c e K ->
    Invoice.format_currency (PyDecimal.to_float (PyDecimal.Dec neg c e))
    = More.cents_text neg K.
Proof. exact whole_cents_text. Qed.

(** Decimal("1234567.80") is printed as $1,234,567.80. *)
Lemma X13_witness :
  Invoice.format_currency (PyDecimal.to_float (PyDecimal.Dec false 123456780 (-2)))
  = "$1,234,567.80".
Proof.
  apply (X13_whole_cents_are_printed_exactly false 123456780 (-2) 123456780).
  - lia.
  - split; [lia|reflexivity].
  - reflexivity.
Defined.

Section MoreRows.
Import Invoice.


End MoreRows.



Section MoreExactTotal.
Import PyDecimal.

Lemma ndigits_small (c : Z) : 0 <= c < 10 ^ 28 -> ndigits c <= 28.
Proof.
  intros [H0 H1]. destruct (Z.eq_dec c 0) as [->|Hne].
  - rewrite ndigits_zero. lia.
  - apply ndigits_le; lia.
Qed.

Lemma small_within_context (s : bool) (c : Z) (e : Z) :
  0 <= c < 2 ^ 52 -> -2 <= e <= 0 -> within_context (Dec s c e) = true.
Proof.
  intros Hc He. cbn [within_context].
  assert (Hlt : 2 ^ 52 < 10 ^ 28) by reflexivity.
  pose proof (ndigits_small c ltac:(lia)) as Hnd.
  pose proof (ndigits_positive c) as Hpos.
  unfold Etiny, Etop, Emax, Emin, prec.
  rewrite !andb_true_iff, !Z.leb_le. lia.
Qed.

(** What an item with one decimal place is made of. *)
Lemma one_decimal_inv (item : Invoice.line_item) :
  More.one_decimal item = true ->
  exists s1 c1 r s2 c2,
    of_float_str (Invoice.hours item) = Dec s1 c1 (-1)
    /\ Invoice.rate item = Invoice.PFloat r
    /\ of_float_str r = Dec s2 c2 (-1)
    /\ 0 <= c1 /\ 0 <= c2.
Proof.
  unfold More.one_decimal.
  destruct (of_float_str (Invoice.hours item)) as [s1 c1 e1| |]; try discriminate.
  destruct (Invoice.rate item) as [z|r]; try discriminate.
  destruct (of_float_str r) as [s2 c2 e2| |] eqn:Hrd; try discriminate.
  rewrite !andb_true_iff, !Z.eqb_eq, !Z.leb_le. intros [[[-> ->] H1] H2].
  exists s1, c1, r, s2, c2. repeat split; assumption || reflexivity.
Qed.

Lemma abs_signed (s : bool) (c : Z) : 0 <= c -> Z.abs (Spec.signed s c) = c.
Proof. destruct s; cbn; lia. Qed.

(** The loop over items with one decimal place, while the amounts stay
    below 2^52 cents: nothing is rounded, and the total is the sum of the
    cents. *)
Lemma add_items_cents (line_items : list Invoice.line_item) :
  forall (total : decimal) (table_data : Invoice.table) (S A : Z),
    forallb More.one_decimal line_items = true ->
    More.cents_so_far total S ->
    Z.abs S <= A ->
    A + More.sum_abs_cents line_items < 2 ^ 52 ->
    exists total' rows,
      Invoice.add_items total table_data line_items = Ok (total', table_data ++ rows)
      /\ More.cents_so_far total' (S + More.sum_cents line_items).
Proof.
  induction line_items as [|item rest IH]; intros total tbl S A Hall Hinv HS HA.
  - exists total, []. cbn. rewrite app_nil_r, Z.add_0_r. auto.
  - cbn [forallb] in Hall. apply andb_prop in Hall as [Hitem Hall].
    destruct (one_decimal_inv item Hitem) as (s1 & c1 & r & s2 & c2 & Hh & Hr & Hrd & Hc1 & Hc2).
    cbn [More.sum_abs_cents More.sum_cents fold_right] in HA |- *.
    fold (More.sum_abs_cents rest) in HA. fold (More.sum_cents rest).
    assert (Hcents : More.item_cents item = Spec.signed s1 c1 * Spec.signed s2 c2).
    { unfold More.item_cents. rewrite Hh, Hr. cbn [Invoice.Decimal_of_str].
      rewrite Hrd. reflexivity. }
    assert (Habs : Z.abs (More.item_cents item) = c1 * c2).
    { rewrite Hcents, Z.abs_mul, !abs_signed by assumption. reflexivity. }
    assert (Hrest0 : 0 <= More.sum_abs_cents rest).
    { clear. induction rest as [|i l IHl]; cbn; [lia|].
      fold (More.sum_abs_cents l). lia. }
    rewrite Habs in HA.
    assert (Hprod : 0 <= c1 * c2) by nia.
    cbn [Invoice.add_items]. unfold Invoice.amount_of, Invoice.item_row.
    rewrite Hh, Hr. cbn [Invoice.Decimal_of_str Invoice.format_number]. rewrite Hrd.
    cbn [mul]. unfold mul_exact.
    rewrite (fix_within_context (Dec (xorb s1 s2) (c1 * c2) (-1 + -1)))
      by (apply small_within_context; lia).
    cbn [rbind].
    destruct Hinv as (s & c & e & -> & Hc & Hcase).
    cbn [add].
    assert (Hsum : exists s' c',
               add_exact s c e (xorb s1 s2) (c1 * c2) (-1 + -1) = Dec s' c' (-2)
               /\ 0 <= c'
               /\ Spec.signed s' c' = S + Spec.signed s1 c1 * Spec.signed s2 c2).
    { rewrite <- signed_mul. unfold add_exact.
      fold (Spec.signed s c) (Spec.signed (xorb s1 s2) (c1 * c2)).
      destruct Hcase as [(-> & -> & ->)|(-> & HSc)].
      - change (Z.min 0 (-1 + -1)) with (-2).
        change (10 ^ (0 - -2)) with 100. change (10 ^ (-1 + -1 - -2)) with 1.
        rewrite signed_zero.
        set (v := 0 * 100 + Spec.signed (xorb s1 s2) (c1 * c2) * 1).
        assert (Hv : v = Spec.signed (xorb s1 s2) (c1 * c2)) by (subst v; ring).
        destruct (v =? 0) eqn:Hz.
        + apply Z.eqb_eq in Hz. eexists _, 0. split; [reflexivity|].
          split; [lia|]. rewrite signed_zero. lia.
        + exists (v <? 0), (Z.abs v). split; [reflexivity|]. split; [lia|].
          unfold Spec.signed at 1. destruct (v <? 0) eqn:Hneg; lia.
      - change (Z.min (-2) (-1 + -1)) with (-2).
        change (10 ^ (-2 - -2)) with 1. change (10 ^ (-1 + -1 - -2)) with 1.
        set (v := Spec.signed s c * 1 + Spec.signed (xorb s1 s2) (c1 * c2) * 1).
        assert (Hv : v = S + Spec.signed (xorb s1 s2) (c1 * c2)) by (subst v; lia).
        destruct (v =? 0) eqn:Hz.
        + apply Z.eqb_eq in Hz. eexists _, 0. split; [reflexivity|].
          split; [lia|]. rewrite signed_zero. lia.
        + exists (v <? 0), (Z.abs v). split; [reflexivity|]. split; [lia|].
          unfold Spec.signed at 1. destruct (v <? 0) eqn:Hneg; lia. }
    destruct Hsum as (s' & c' & -> & Hc' & HS').
    assert (Hbound : Z.abs (S + More.item_cents item) <= A + c1 * c2).
    { rewrite <- Habs. lia. }
    assert (Hc'lt : c' < 2 ^ 52).
    { rewrite <- (abs_signed s' c' Hc'), HS', <- Hcents. lia. }
    rewrite (fix_within_context (Dec s' c' (-2)))
      by (apply small_within_context; lia).
    cbn [rbind].
    assert (Hinv : More.cents_so_far (Dec s' c' (-2)) (S + More.item_cents item)).
    { exists s', c', (-2). split; [reflexivity|]. split; [exact Hc'|].
      right. split; [reflexivity|]. rewrite Hcents. exact HS'. }
    match goal with
    | |- context [Invoice.add_items _ ?t rest] =>
        destruct (IH (Dec s' c' (-2)) t (S + More.item_cents item) (A + c1 * c2)
                     Hall Hinv Hbound ltac:(lia))
          as (total' & rows & Hloop & Hinv')
    end.
    exists total'. eexists (_ :: rows). split.
    + rewrite Hloop, <- app_assoc. reflexivity.
    + rewrite Z.add_assoc. exact Hinv'.
Qed.

(** The coefficient of the total stays below the sum of the amounts. *)
Lemma sum_cents_bound (line_items : list Invoice.line_item) :
  Z.abs (More.sum_cents line_items) <= More.sum_abs_cents line_items.
Proof.
  induction line_items as [|item rest IH]; cbn; [lia|].
  fold (More.sum_cents rest) (More.sum_abs_cents rest). lia.
Qed.

(** The sum of the cents is the exact sum of hours x rate. *)
Lemma sum_cents_exact (line_items : list Invoice.line_item) :
  forallb More.one_decimal line_items = true ->
  (Spec.exact_sum line_items == More.sum_cents line_items # 100)%Q.
Proof.
  induction line_items as [|item rest IH]; intros Hall.
  - reflexivity.
  - cbn [forallb] in Hall. apply andb_prop in Hall as [Hitem Hall].
    destruct (one_decimal_inv item Hitem) as (s1 & c1 & r & s2 & c2 & Hh & Hr & Hrd & _).
    cbn [Spec.exact_sum More.sum_cents fold_right]. fold (More.sum_cents rest).
    rewrite (IH Hall). unfold More.item_cents.
    rewrite Hh, Hr. cbn [Invoice.Decimal_of_str]. rewrite Hrd, !to_Q_Dec.
    change ((10 # 1) ^ (-1))%Q with (1 # 10)%Q.
    unfold Qeq, Qmult, Qplus, inject_Z. cbn [Qnum Qden]. lia.
Qed.

(** The last row of the table is the total row. *)
Lemma last_total_row (rows : Invoice.table) (row : list Invoice.cell) :
  List.last (rows ++ [row]) [] = row.
Proof. apply last_last. Qed.

End MoreExactTotal.

(** X15. For line items whose hours and rate are floats with one decimal
    place (7.5 hours at 150.0), with amounts that add up to less than 2^52
    cents, the invoice is exact from end to end: the table is built, and the
    last cell of its last row shows, to the cent, the sum of hours x rate
    over the items -- no rounding in the decimal sum, none in the
    conversion to a float, none in the formatting. *)
Theorem X15_total_row_shows_the_exact_sum :
  forall line_items : list Invoice.line_item,
    forallb More.one_decimal line_items = true ->
    More.sum_abs_cents line_items < 2 ^ 52 ->
    exists (table_data : Invoice.table) (neg : bool) (K : Z),
      Invoice.build_table line_items = Ok table_data
      /\ List.last table_data []
         = [Some ""; Some ""; Some "Total"; Some (More.cents_text neg K)]
      /\ 0 <= K
      /\ (Spec.exact_sum line_items == Spec.signed neg K # 100)%Q.
Proof.
  intros line_items Hall Hsum.
  destruct (add_items_cents line_items (PyDecimal.Dec false 0 0) [Invoice.header_row] 0 0 Hall)
    as (total & rows & Hloop & s & c & e & -> & Hc & Hcase); [|lia|lia|].
  { exists false, 0, 0. split; [reflexivity|]. split; [lia|]. left. auto. }
  pose proof (sum_cents_bound line_items) as Hb.
  assert (HK : exists K, 0 <= K < 2 ^ 52 /\ More.whole_cents c e K
                         /\ Spec.signed s K = More.sum_cents line_items).
  { destruct Hcase as [(-> & -> & H0)|(-> & HS)].
    - exists 0. split; [lia|]. split; [reflexivity|]. rewrite signed_zero. lia.
    - exists c. split; [|split; [|lia]].
      + rewrite <- (abs_signed s c Hc). lia.
      + change (c = c * 1). lia. }
  destruct HK as (K & HKb & Hw & HKs).
  unfold Invoice.build_table. rewrite Hloop. cbn [rbind].
  eexists. exists s, K. split; [reflexivity|]. split; [|split; [lia|]].
  - rewrite last_total_row. unfold Invoice.total_row.
    rewrite (whole_cents_text s c e K Hc HKb Hw). reflexivity.
  - rewrite HKs. apply sum_cents_exact. exact Hall.
Qed.

(** 7.5 hours at 150.0 and 0.1 hours at 3.0, three times each: $3,375.90. *)
Lemma X15_witness :
  exists table_data : Invoice.table,
    Invoice.build_table (repeat (Demo.item More.f7_5 More.f150) 3
                         ++ repeat (Demo.item Demo.f0_1 Demo.f3) 3)
    = Ok table_data
    /\ List.last table_data [] = [Some ""; Some ""; Some "Total"; Some "$3,375.90"].
Proof.
  destruct (X15_total_row_shows_the_exact_sum
              (repeat (Demo.item More.f7_5 More.f150) 3
               ++ repeat (Demo.item Demo.f0_1 Demo.f3) 3))
    as (table_data & neg & K & Hb & Hlast & HK & Hsum);
    [vm_compute; reflexivity|vm_compute; reflexivity|].
  exists table_data. split; [exact Hb|].
  vm_compute in Hb. inversion Hb. reflexivity.
Defined.

Section MoreNaN.
Import PyDecimal.

(** Once the running total is NaN it stays NaN. *)
Lemma add_items_from_nan (line_items : list Invoice.line_item) :
  forall (table_data : Invoice.table) (total' : decimal) (table_data' : Invoice.table),
    Invoice.add_items DNaN table_data line_items = Ok (total', table_data') ->
    total' = DNaN.
Proof.
  induction line_items as [|item rest IH]; intros tbl total' tbl' H.
  - cbn in H. now inversion H.
  - cbn [Invoice.add_items] in H.
    destruct (Invoice.amount_of item) as [amount|]; cbn [rbind] in H; [|discriminate].
    cbn [add] in H. cbn [rbind] in H.
    destruct (Invoice.item_row item amount) as [row|]; cbn [rbind] in H; [|discriminate].
    exact (IH _ _ _ H).
Qed.

(** Adding NaN gives NaN. *)
Lemma add_nan (total : decimal) : add total DNaN = Ok DNaN.
Proof. destruct total; reflexivity. Qed.

(** An item without a number for its hours makes the total NaN. *)
Lemma add_items_reach_nan (line_items : list Invoice.line_item) (item : Invoice.line_item) :
  In item line_items -> Invoice.hours item = PyFloat.NaN ->
  forall (total : decimal) (table_data : Invoice.table)
         (total' : decimal) (table_data' : Invoice.table),
    Invoice.add_items total table_data line_items = Ok (total', table_data') ->
    total' = DNaN.
Proof.
  intros Hin Hnan.
  induction line_items as [|item0 rest IH]; intros total tbl total' tbl' H; [contradiction|].
  cbn [Invoice.add_items] in H.
  destruct Hin as [->|Hin].
  - unfold Invoice.amount_of in H. rewrite Hnan in H.
    cbn [of_float_str mul rbind] in H. rewrite add_nan in H. cbn [rbind] in H.
    destruct (Invoice.item_row item DNaN) as [row|]; cbn [rbind] in H; [|discriminate].
    exact (add_items_from_nan _ _ _ _ H).
  - destruct (Invoice.amount_of item0) as [amount|]; cbn [rbind] in H; [|discriminate].
    destruct (add total amount) as [t1|]; cbn [rbind] in H; [|discriminate].
    destruct (Invoice.item_row item0 amount) as [row|]; cbn [rbind] in H; [|discriminate].
    exact (IH Hin _ _ _ _ H).
Qed.

End MoreNaN.

(** X16. Hours that are not a number are not turned away: [float()] reads
    "nan", and an item with such hours goes through the loop like any other.
    Whenever the table is built for items among which one has NaN hours, the
    total row shows "$nan", whatever the other items are. *)
Theorem X16_nan_hours_give_a_nan_total :
  forall (line_items : list Invoice.line_item) (item : Invoice.line_item)
         (table_data : Invoice.table),
    In item line_items ->
    Invoice.hours item = PyFloat.NaN ->
    Invoice.build_table line_items = Ok table_data ->
    List.last table_data [] = [Some ""; Some ""; Some "Total"; Some "$nan"].
Proof.
  intros line_items item table_data Hin Hnan H. unfold Invoice.build_table in H.
  destruct (Invoice.add_items _ _ line_items) as [[total tbl]|] eqn:Hloop;
    cbn [rbind] in H; [|discriminate].
  rewrite (add_items_reach_nan line_items item Hin Hnan _ _ _ _ Hloop) in H.
  inversion H. apply last_last.
Qed.

(** The hours "nan" of a CSV row, between 10.0 hours and 0.1 hours. *)
Lemma X16_witness :
  PyFloat.parse "nan" = Some PyFloat.NaN
  /\ exists table_data,
       Invoice.build_table [Demo.item Demo.f10 Demo.f100;
                            Demo.item PyFloat.NaN Demo.f100;
                            Demo.item Demo.f0_1 Demo.f3] = Ok table_data
       /\ List.last table_data [] = [Some ""; Some ""; Some "Total"; Some "$nan"].
Proof.
  split; [vm_compute; reflexivity|].
  destruct (Invoice.build_table [Demo.item Demo.f10 Demo.f100;
                                 Demo.item PyFloat.NaN Demo.f100;
                                 Demo.item Demo.f0_1 Demo.f3])
    as [table_data|e] eqn:Hb; [|vm_compute in Hb; discriminate Hb].
  exists table_data. split; [reflexivity|].
  apply (X16_nan_hours_give_a_nan_total
           [Demo.item Demo.f10 Demo.f100; Demo.item PyFloat.NaN Demo.f100;
            Demo.item Demo.f0_1 Demo.f3]
           (Demo.item PyFloat.NaN Demo.f100) table_data);
    [right; left; reflexivity|reflexivity|exact Hb].
Defined.
